(** * Rainfall report: the aggregation-and-report pipeline of [app_beijin.py]

    The script loads a weather table, groups the rainfall by year and by
    month, classifies each year against the multi-year average, chooses an
    agricultural recommendation, and builds a three-sheet workbook.

    Numbers.  The script computes on float64.  Here a float is an exact
    rational ([Q], compared with [==]): rounding error is outside the model,
    and a missing cell (NaN) of the rainfall column is [None], which pandas'
    [sum] skips.  Exceptions are values of [exn]; the rendering sink is the
    list of widgets emitted so far. *)

From Stdlib Require Import ZArith QArith Qabs List String Ascii Bool Lia Lqa.
From Stdlib Require Import Sorting.Sorted.
From Stdlib Require Import DecimalString DecimalN.
Import ListNotations.

Open Scope Z_scope.

(** ** Exceptions and the error monad *)

Inductive exn : Type :=
| ReadError (detail : string)      (* whatever [pd.read_csv] raised *)
| KeyError (key : string)
| ValueError (detail : string)
| TypeError (detail : string)
| IndexError (detail : string).

(** [str(e)], as interpolated by the f-string of the load handler. *)
Definition str_exn (e : exn) : string :=
  match e with
  | ReadError d => d
  | KeyError k => ("'" ++ k ++ "'")%string
  | ValueError d => d
  | TypeError d => d
  | IndexError d => d
  end.

Definition result (A : Type) : Type := exn + A.

Definition ret {A} (a : A) : result A := inr a.
Definition raise {A} (e : exn) : result A := inl e.
Definition bind {A B} (m : result A) (f : A -> result B) : result B :=
  match m with
  | inl e => inl e
  | inr a => f a
  end.

Declare Scope result_scope.
Delimit Scope result_scope with result.
Notation "x <- m ;; k" := (bind m (fun x => k))
  (at level 61, m at next level, right associativity) : result_scope.

Fixpoint mapM {A B} (f : A -> result B) (l : list A) : result (list B) :=
  match l with
  | [] => ret []
  | a :: t => (b <- f a ;; bs <- mapM f t ;; ret (b :: bs))%result
  end.

(** ** Series: an index of integer labels with float values *)

Definition series : Type := list (Z * Q).

Definition index (s : series) : list Z := map fst s.
Definition values (s : series) : list Q := map snd s.

Definition Qsum (l : list Q) : Q := fold_right Qplus 0%Q l.

(** [s[label]] *)
Fixpoint lookup (k : Z) (s : series) : option Q :=
  match s with
  | [] => None
  | (k', v) :: t => if k =? k' then Some v else lookup k t
  end.

(** [a > b] and [a < b] on floats. *)
Definition Qgtb (a b : Q) : bool :=
  match (a ?= b)%Q with Gt => true | _ => false end.
Definition Qltb (a b : Q) : bool :=
  match (a ?= b)%Q with Lt => true | _ => false end.

(** ** Observations *)

(** One row of the frame after loading, as the calculations read it:
    the derived [year] and [month] and the [rainfall] cell. *)
Record row : Type := mkRow {
  year : Z;
  month : Z;
  rainfall : option Q
}.

(** NaN counts for nothing in a pandas sum. *)
Definition skipna (c : option Q) : Q :=
  match c with
  | Some q => q
  | None => 0%Q
  end.

(** [df['rainfall'].sum()] *)
Definition column_sum (rows : list row) : Q :=
  Qsum (map (fun r => skipna (rainfall r)) rows).

(** ** Aggregator *)

(** Adds one observation to the group of its key; the groups are kept in
    ascending key order, as [groupby] sorts them. *)
Fixpoint group_add (k : Z) (v : Q) (s : series) : series :=
  match s with
  | [] => [(k, v)]
  | (k', v') :: t =>
      if k <? k' then (k, v) :: s
      else if k =? k' then (k', (v' + v)%Q) :: t
      else (k', v') :: group_add k v t
  end.

(** [df.groupby(key)['rainfall'].sum()] *)
Definition groupby_sum (key : row -> Z) (rows : list row) : series :=
  fold_left (fun acc r => group_add (key r) (skipna (rainfall r)) acc) rows [].

(** [Series.mean()].  On the empty series pandas answers NaN; the model's
    [0 / 0] is [0].  The script reads the value only after line 76, which
    raises on the empty frame (see [idxmax]). *)
Definition mean (l : list Q) : Q :=
  (Qsum l / inject_Z (Z.of_nat (List.length l)))%Q.

(** [series - scalar] and [series / scalar], element by element. *)
Definition series_sub (s : series) (a : Q) : series :=
  map (fun kv => (fst kv, (snd kv - a)%Q)) s.
Definition series_div (s : series) (a : Q) : series :=
  map (fun kv => (fst kv, (snd kv / a)%Q)) s.

(** [df['year'].max() - df['year'].min() + 1].  NaN on the empty frame,
    where it only divides the empty series; the model gives [0] there. *)
Definition year_span (rows : list row) : Z :=
  match map year rows with
  | [] => 0
  | y :: ys => fold_left Z.max ys y - fold_left Z.min ys y + 1
  end.

(** First label of the largest value: a later entry replaces the running
    best only when it is strictly larger. *)
Fixpoint idxmax_from (best : Z * Q) (s : series) : Z :=
  match s with
  | [] => fst best
  | kv :: t =>
      if Qgtb (snd kv) (snd best) then idxmax_from kv t
      else idxmax_from best t
  end.

(** [Series.idxmax()] *)
Definition idxmax (s : series) : result Z :=
  match s with
  | [] => raise (ValueError "attempt to get argmax of an empty sequence")
  | kv :: t => ret (idxmax_from kv t)
  end.

(** [Series.max()] of a non-empty series ([0] stands for NaN otherwise). *)
Definition series_max (s : series) : Q :=
  match values s with
  | [] => 0%Q
  | v :: vs => fold_left (fun m x => if Qgtb x m then x else m) vs v
  end.

Definition yearly_rain (rows : list row) : series := groupby_sum year rows.
Definition avg_rain (rows : list row) : Q := mean (values (yearly_rain rows)).
Definition anomaly (rows : list row) : series :=
  series_sub (yearly_rain rows) (avg_rain rows).
Definition monthly_total (rows : list row) : series := groupby_sum month rows.
Definition monthly_avg (rows : list row) : series :=
  series_div (monthly_total rows) (inject_Z (year_span rows)).

(** ** Text: float formatting, column-name normalisation, the status regex *)

Open Scope string_scope.
Open Scope Z_scope.

(** Nearest integer, ties to the even neighbour. *)
Definition round_half_even (q : Q) : Z :=
  let d := Z.pos (Qden q) in
  let f := Qnum q / d in
  let r := Qnum q mod d in
  match 2 * r ?= d with
  | Lt => f
  | Gt => f + 1
  | Eq => if Z.even f then f else f + 1
  end.

Definition decimal (n : Z) : string :=
  NilZero.string_of_uint (N.to_uint (Z.to_N n)).

Fixpoint zero_pad (width : nat) (s : string) : string :=
  match width - String.length s with
  | O => s
  | S _ => match width with
           | O => s
           | S w => "0" ++ zero_pad w s
           end
  end%nat.

(** [f"{q:.<digits>f}"]: sign, integer part, point, [digits] decimals.
    A negative value keeps its sign when it rounds to zero. *)
Definition format_fixed (digits : nat) (q : Q) : string :=
  let scale := 10 ^ Z.of_nat digits in
  let m := round_half_even (Qabs q * inject_Z scale) in
  (if Qltb q 0 then "-" else "")
    ++ decimal (m / scale) ++ "." ++ zero_pad digits (decimal (m mod scale)).

(** Characters [str.strip] removes and the map of [str.lower], on ASCII. *)
Definition is_space (c : ascii) : bool :=
  let n := nat_of_ascii c in
  ((9 <=? n) && (n <=? 13) || (28 <=? n) && (n <=? 32))%nat.

Definition lower_ascii (c : ascii) : ascii :=
  let n := nat_of_ascii c in
  if ((65 <=? n) && (n <=? 90))%nat then ascii_of_nat (n + 32) else c.

Fixpoint lstrip (s : string) : string :=
  match s with
  | String c t => if is_space c then lstrip t else s
  | EmptyString => EmptyString
  end.

Fixpoint rstrip (s : string) : string :=
  match s with
  | EmptyString => EmptyString
  | String c t =>
      match rstrip t with
      | EmptyString => if is_space c then EmptyString else String c EmptyString
      | t' => String c t'
      end
  end.

Definition strip (s : string) : string := rstrip (lstrip s).

Fixpoint lower (s : string) : string :=
  match s with
  | EmptyString => EmptyString
  | String c t => String (lower_ascii c) (lower t)
  end.

(** Length of the match of [\(.*\)] at the head of [s], if any: an opening
    parenthesis, then as much of the line as still leaves a closing one. *)
Fixpoint last_close (s : string) (pos : nat) (found : option nat) : option nat :=
  match s with
  | EmptyString => found
  | String c t =>
      if Ascii.eqb c "010" then found
      else last_close t (S pos) (if Ascii.eqb c ")" then Some (S pos) else found)
  end.

Definition match_qualifier (s : string) : option nat :=
  match s with
  | String " " (String "(" t) => last_close t 2 None
  | _ => None
  end.

(** Scans left to right; [skip] characters of a match are still to drop. *)
Fixpoint sub_qualifier (skip : nat) (s : string) : string :=
  match s with
  | EmptyString => EmptyString
  | String c t =>
      match skip with
      | S n => sub_qualifier n t
      | O =>
          match match_qualifier s with
          | Some (S n) => sub_qualifier n t
          | _ => String c (sub_qualifier 0 t)
          end
      end
  end.

(** [.str.replace(r' \(.*\)', '', regex=True)] on one label. *)
Definition strip_qualifier (s : string) : string := sub_qualifier 0 s.

(** [calendar.month_name]: thirteen entries, the first one empty; a
    negative index counts from the end, as on any Python list. *)
Definition month_names : list string :=
  [""; "January"; "February"; "March"; "April"; "May"; "June"; "July";
   "August"; "September"; "October"; "November"; "December"].

Definition month_abbr : list string :=
  [""; "Jan"; "Feb"; "Mar"; "Apr"; "May"; "Jun"; "Jul";
   "Aug"; "Sep"; "Oct"; "Nov"; "Dec"].

Definition list_getitem (names : list string) (i : Z) : result string :=
  let j := if i <? 0 then i + Z.of_nat (List.length names) else i in
  if j <? 0 then raise (IndexError "list index out of range")
  else match nth_error names (Z.to_nat j) with
       | Some s => ret s
       | None => raise (IndexError "list index out of range")
       end.

Definition month_name (i : Z) : result string := list_getitem month_names i.

(** ** Report builder *)

(** The 15% band of lines 93-95. *)
Definition status_of (anom_val avg : Q) : string :=
  if Qgtb anom_val (avg * 0.15) then "Wet (Above Average)"
  else if Qltb anom_val (- (avg * 0.15)) then "Dry (Below Average)"
  else "Normal".

(** One dictionary of [summary_data]. *)
Record table_row : Type := mkTableRow {
  Year : Z;
  Rainfall_mm : string;
  Status : string
}.

Definition getitem (k : Z) (s : series) : result Q :=
  match lookup k s with
  | Some v => ret v
  | None => raise (KeyError (decimal k))
  end.

(** The loop of lines 91-101 over [yearly_rain.items()]. *)
Definition summary_data (yearly anom : series) (avg : Q) : result (list table_row) :=
  mapM (fun item =>
          (anom_val <- getitem (fst item) anom ;;
           ret {| Year := fst item;
                  Rainfall_mm := format_fixed 2 (snd item);
                  Status := status_of anom_val avg |})%result)
       yearly.

(** [monthly_avg[monthly_avg > 100].count()] *)
Definition wet_months (profile : series) : Z :=
  Z.of_nat (List.length (filter (fun kv => Qgtb (snd kv) 100) profile)).

Inductive severity : Type := success | warning | error.

Record insight : Type := mkInsight {
  level : severity;
  banner : string;          (* the prefix the sink shows before the text *)
  insight_text : string
}.

Definition favorable : insight :=
  mkInsight success "✅ **Favorable Status:** "
    "Excellent Condition: Suitable for long-cycle crops like Rice, as the rainy season is extended.".

Definition moderate : insight :=
  mkInsight warning "⚠️ **Moderate Status:** "
    "Moderate Condition: Suitable for fast-growing crops like Maize and Beans (Short cycle) due to average rainfall duration.".

Definition dry_risk : insight :=
  mkInsight error "🛑 **Dry Status:** "
    "CAUTION: Dry area. High drought risk requires planting drought-resistant crops (Cassava, Sorghum).".

(** Lines 112-120. *)
Definition select_insight (count : Z) : insight :=
  if count >=? 5 then favorable
  else if count >=? 3 then moderate
  else dry_risk.

(** *** Workbook *)

Inductive cell : Type :=
| Int (z : Z)
| Float (q : Q)
| Text (s : string).

Record sheet : Type := mkSheet {
  sheet_name : string;
  header : list string;
  body : list (list cell)
}.

(** The sheets in the order the writer receives them; the bytes of the
    xlsx container are not modelled. *)
Definition workbook : Type := list sheet.

Definition create_excel_report (yearly_data : list table_row) (monthly_data : series)
    (avg : Q) (wet_month : string) (text : string) : result workbook :=
  (let yearly_summary :=
     map (fun r => [Int (Year r); Text (Rainfall_mm r); Text (strip_qualifier (Status r))])
         yearly_data in
   names <- mapM month_name (index monthly_data) ;;
   let monthly_summary :=
     map (fun x => [Int (fst (fst x)); Text (snd x); Float (snd (fst x))])
         (combine monthly_data names) in
   let insights_df :=
     [ [Text "7-Year Average Rainfall"; Text (format_fixed 2 avg ++ " mm")];
       [Text "Wettest Month"; Text wet_month];
       [Text "Main Recommendation"; Text text] ] in
   ret [ mkSheet "1_Yearly_Trends" ["Year"; "Total Rainfall (mm)"; "Status"] yearly_summary;
         mkSheet "2_Monthly_Seasonality"
                 ["Month Index"; "Month Name"; "Average Rainfall (mm)"] monthly_summary;
         mkSheet "3_Key_Insights" ["Metric"; "Value"] insights_df ])%result.

(** *** Charts *)

Record figure : Type := mkFigure {
  bars : list (Z * Q * string);      (* year, deviation, colour *)
  bars_title : string;
  profile_line : series;             (* month, average *)
  profile_title : string;
  xticks : list Z;
  xticklabels : list string
}.

Definition bar_color (x : Q) : string :=
  if Qle_bool 0 x then "#1f77b4" else "#d62728".

(** [range(1, 13)] *)
Definition months_1_12 : list Z := map Z.of_nat (seq 1 12).

(** ** Frames and the loader *)

Record date : Type := mkDate {
  date_year : Z;
  date_month : Z;
  date_day : Z
}.

Inductive column : Type :=
| TextCol (l : list string)
| NumCol (l : list (option Q))
| IntCol (l : list Z)
| DateCol (l : list date).

(** A DataFrame: labelled columns, left to right.  The frames considered
    carry each label once; a selection takes the first column of a label. *)
Definition frame : Type := list (string * column).

Definition columns (df : frame) : list string := map fst df.

Definition set_columns (f : string -> string) (df : frame) : frame :=
  map (fun lc => (f (fst lc), snd lc)) df.

Definition has_column (name : string) (df : frame) : bool :=
  existsb (String.eqb name) (columns df).

Definition rename (old new : string) (df : frame) : frame :=
  set_columns (fun n => if String.eqb n old then new else n) df.

Fixpoint getitem_col (name : string) (df : frame) : result column :=
  match df with
  | [] => raise (KeyError name)
  | (n, c) :: t => if String.eqb n name then ret c else getitem_col name t
  end.

Fixpoint setitem (name : string) (c : column) (df : frame) : frame :=
  match df with
  | [] => [(name, c)]
  | (n, c') :: t => if String.eqb n name then (n, c) :: t
                    else (n, c') :: setitem name c t
  end.

Definition int_column (name : string) (df : frame) : result (list Z) :=
  (c <- getitem_col name df ;;
   match c with
   | IntCol l => ret l
   | _ => raise (TypeError "not an integer column")
   end)%result.

(** The rainfall values a numeric aggregation reads; text and dates do
    not aggregate to a number. *)
Definition numeric_column (name : string) (df : frame) : result (list (option Q)) :=
  match getitem_col name df with
  | inl _ => raise (KeyError ("Column not found: " ++ name))
  | inr (NumCol l) => ret l
  | inr (IntCol l) => ret (map (fun z => Some (inject_Z z)) l)
  | inr _ => raise (TypeError "Could not convert to numeric")
  end.

Fixpoint zip_rows (ys ms : list Z) (rs : list (option Q)) : list row :=
  match ys, ms, rs with
  | y :: ys', m :: ms', r :: rs' => mkRow y m r :: zip_rows ys' ms' rs'
  | _, _, _ => []
  end.

(** The three columns lines 70 and 75 read, row by row. *)
Definition observations (df : frame) : result (list row) :=
  (ys <- int_column "year" df ;;
   rs <- numeric_column "rainfall" df ;;
   ms <- int_column "month" df ;;
   ret (zip_rows ys ms rs))%result.

Definition file_path : string := "beijing_2018_2024_weather.csv".

Definition load_error_message (e : exn) : string :=
  "ERROR: Could not load the CSV file. Please ensure 'beijing_2018_2024_weather.csv' is in your repository. Details: "
    ++ str_exn e.

(** ** The script: widgets emitted and how the run ends *)

Inductive widget : Type :=
| page_config (page_title page_icon : string)
| title (s : string)
| markdown (s : string)
| write (s : string)
| subheader (s : string)
| metric (label value : string)
| table (rows : list table_row)
| alert (lv : severity) (s : string)
| pyplot (fig : figure)
| download_button (label : string) (data : workbook) (file_name mime : string).

Inductive ending (A : Type) : Type :=
| Done (a : A)
| Stopped                  (* [st.stop()] *)
| Raised (e : exn).        (* an exception no handler caught *)

Arguments Done {A} a.
Arguments Stopped {A}.
Arguments Raised {A} e.

(** What the sink received, in order, and the way the run ended. *)
Definition script (A : Type) : Type := list widget * ending A.

Definition done {A} (a : A) : script A := ([], Done a).
Definition emit (w : widget) : script unit := ([w], Done tt).
Definition stop {A} : script A := ([], Stopped).
Definition lift {A} (r : result A) : script A :=
  match r with
  | inl e => ([], Raised e)
  | inr a => ([], Done a)
  end.

Definition then_ {A B} (m : script A) (f : A -> script B) : script B :=
  match snd m with
  | Done a => ((fst m ++ fst (f a))%list, snd (f a))
  | Stopped => (fst m, Stopped)
  | Raised e => (fst m, Raised e)
  end.

Declare Scope script_scope.
Delimit Scope script_scope with script.
Notation "x <- m ;; k" := (then_ m (fun x => k))
  (at level 61, m at next level, right associativity) : script_scope.
Notation "m ;; k" := (then_ m (fun _ => k))
  (at level 61, right associativity) : script_scope.

Definition rendered {A} (s : script A) : list widget := fst s.
Definition outcome {A} (s : script A) : ending A := snd s.

(** The recommendation and error boxes among the widgets shown. *)
Fixpoint alerts (ws : list widget) : list (severity * string) :=
  match ws with
  | [] => []
  | alert lv s :: t => (lv, s) :: alerts t
  | _ :: t => alerts t
  end.

(** Lines 55-59: labels trimmed and lower-cased, then the rainfall alias
    renamed. *)
Definition normalise (df : frame) : frame :=
  let df := set_columns (fun n => lower (strip n)) df in
  if has_column "precipitation_mm" df then rename "precipitation_mm" "rainfall" df
  else if has_column "precip" df then rename "precip" "rainfall" df
  else df.

(** What the script shows before it reads the file (lines 43-47). *)
Definition page_header : list widget :=
  [ page_config "Bejin Rainfall Report" "🌧️";
    title "🌧️ BEJIN RAINFALL TREND ANALYSIS (2018-2024)";
    markdown "**A Data Report for Clients and Agricultural Planning**";
    write "---" ].

Section App.

(** [pd.read_csv] on a path: the frame, or the exception raised when the
    file is missing or unreadable. *)
Variable read_csv : string -> result frame.

(** [pd.to_datetime] on a column: the dates, one per cell, or the
    exception raised on a value it cannot parse. *)
Variable to_datetime : column -> result (list date).

(** The body of the [try] block (lines 50-63). *)
Definition load : result frame :=
  (df <- read_csv file_path ;;
   let df := normalise df in
   c <- getitem_col "date" df ;;
   dates <- to_datetime c ;;
   let df := setitem "date" (DateCol dates) df in
   let df := setitem "year" (IntCol (map date_year dates)) df in
   let df := setitem "month" (IntCol (map date_month dates)) df in
   ret df)%result.

(** Lines 69-164, on the loaded frame. *)
Definition report (df : frame) : script unit :=
  (rows <- lift (observations df) ;;
   let yearly := yearly_rain rows in
   let avg := avg_rain rows in
   let anom := anomaly rows in
   let monthly := monthly_avg rows in
   wettest_month_idx <- lift (idxmax monthly) ;;
   wettest_month_name <- lift (month_name wettest_month_idx) ;;
   emit (subheader "1. General Statistics") ;;
   emit (metric "Annual Average" (format_fixed 1 avg ++ " mm")) ;;
   emit (metric "Wettest Month" wettest_month_name) ;;
   emit (metric "Peak Avg. Monthly Rain" (format_fixed 1 (series_max monthly) ++ " mm")) ;;
   emit (subheader "2. Yearly Trends (Deviation from Average)") ;;
   summary <- lift (summary_data yearly anom avg) ;;
   emit (table summary) ;;
   emit (subheader "3. Agricultural Recommendations") ;;
   let ins := select_insight (wet_months monthly) in
   emit (alert (level ins) (banner ins ++ insight_text ins)) ;;
   emit (subheader "4. Visualizations") ;;
   labels <- lift (mapM (list_getitem month_abbr) months_1_12) ;;
   emit (pyplot {| bars := map (fun kv => (fst kv, snd kv, bar_color (snd kv))) anom;
                   bars_title := "Yearly Rainfall Anomaly vs. 7-Year Average";
                   profile_line := monthly;
                   profile_title := "Average Monthly Rainfall (Seasonality)";
                   xticks := months_1_12;
                   xticklabels := labels |}) ;;
   emit (write "---") ;;
   excel_data <- lift (create_excel_report summary monthly avg
                         wettest_month_name (insight_text ins)) ;;
   emit (download_button "📥 Download Full Report (.xlsx)" excel_data
           "bejin_rainfall_report.xlsx"
           "application/vnd.openxmlformats-officedocument.spreadsheetml.sheet"))%script.

(** The whole script. *)
Definition app : script unit :=
  (emit (page_config "Bejin Rainfall Report" "🌧️") ;;
   emit (title "🌧️ BEJIN RAINFALL TREND ANALYSIS (2018-2024)") ;;
   emit (markdown "**A Data Report for Clients and Agricultural Planning**") ;;
   emit (write "---") ;;
   df <- match load with
         | inr df => done df
         | inl e => (emit (alert error (load_error_message e)) ;; stop)
         end ;;
   report df)%script.

End App.

(** A parser for the examples: ISO dates [YYYY-MM-DD]. *)
Definition digit (c : ascii) : option Z :=
  let n := nat_of_ascii c in
  if ((48 <=? n) && (n <=? 57))%nat then Some (Z.of_nat (n - 48)) else None.

Fixpoint number (s : list ascii) (acc : Z) : option Z :=
  match s with
  | [] => Some acc
  | c :: t => match digit c with
              | Some d => number t (10 * acc + d)
              | None => None
              end
  end.

Definition iso_date (s : string) : option date :=
  match list_ascii_of_string s with
  | [y1; y2; y3; y4; "-"%char; m1; m2; "-"%char; d1; d2] =>
      match number [y1; y2; y3; y4] 0, number [m1; m2] 0, number [d1; d2] 0 with
      | Some y, Some m, Some d =>
          if (1 <=? m) && (m <=? 12) && (1 <=? d) && (d <=? 31) then Some (mkDate y m d)
          else None
      | _, _, _ => None
      end
  | _ => None
  end.

Definition iso_to_datetime (c : column) : result (list date) :=
  match c with
  | TextCol l =>
      mapM (fun s => match iso_date s with
                     | Some d => ret d
                     | None => raise (ValueError ("Unknown datetime string format, unable to parse: " ++ s))
                     end) l
  | DateCol l => ret l
  | _ => raise (TypeError "dates are read from text")
  end.

(** ** Vocabulary of the properties *)

(** The labels of a grouped series ascend strictly. *)
Definition ascending (s : series) : Prop := StronglySorted Z.lt (index s).

(** The rainfall of the rows whose key is [k]. *)
Definition rain_where (key : row -> Z) (k : Z) (rows : list row) : list Q :=
  map (fun r => skipna (rainfall r)) (filter (fun r => key r =? k) rows).

(** The number a string of decimal digits writes, if it is one. *)
Definition decimal_value (s : string) : option Z :=
  option_map (fun u => Z.of_N (N.of_uint u)) (NilZero.uint_of_string s).

(** ** Sample inputs *)

(** The single observation [{date: 2020-06-01, rainfall: 50}]. *)
Definition june_2020 : list row := [mkRow 2020 6 (Some 50%Q)].

Definition june_2020_csv : frame :=
  [ (" Date ", TextCol ["2020-06-01"]); ("Precipitation_MM", NumCol [Some 50%Q]) ].

(** A table with dates but no rainfall alias. *)
Definition no_rainfall_csv : frame :=
  [ ("date", TextCol ["2020-06-01"]); ("rain", NumCol [Some 50%Q]) ].

(** A header and no data rows. *)
Definition empty_csv : frame :=
  [ ("date", TextCol []); ("precip", NumCol []) ].

(** Three years, with March and July tied for the largest monthly total. *)
Definition three_years : list row :=
  [ mkRow 2019 7 (Some 120%Q); mkRow 2018 3 (Some 90%Q); mkRow 2020 3 (Some 30%Q);
    mkRow 2019 1 None; mkRow 2020 11 (Some 12.5%Q) ].

Definition three_years_csv : frame :=
  [ ("date", TextCol ["2019-07-04"; "2018-03-09"; "2020-03-21"; "2019-01-15"; "2020-11-02"]);
    ("precip", NumCol [Some 120%Q; Some 90%Q; Some 30%Q; None; Some 12.5%Q]) ].

(** A table whose date column goes by another name. *)
Definition no_date_csv : frame :=
  [ ("Day", TextCol ["2020-06-01"]); ("precip", NumCol [Some 50%Q]) ].

(** [three_years_csv] and [empty_csv] as the loader leaves them. *)
Definition three_years_df : frame :=
  [ ("date", DateCol [mkDate 2019 7 4; mkDate 2018 3 9; mkDate 2020 3 21;
                      mkDate 2019 1 15; mkDate 2020 11 2]);
    ("rainfall", NumCol [Some 120%Q; Some 90%Q; Some 30%Q; None; Some 12.5%Q]);
    ("year", IntCol [2019; 2018; 2020; 2019; 2020]);
    ("month", IntCol [7; 3; 3; 1; 11]) ].

Definition empty_df : frame :=
  [ ("date", DateCol []); ("rainfall", NumCol []); ("year", IntCol []); ("month", IntCol []) ].

(** Two seasons of one year. *)
Definition one_year : list row :=
  [ mkRow 2021 7 (Some 80%Q); mkRow 2021 1 (Some 4.5%Q); mkRow 2021 7 None ].

(** Headers in mixed case with blanks, and columns named like the derived
    ones. *)
Definition shouting_csv : frame :=
  [ ("Year", TextCol ["MMXX"]); (" DATE", TextCol ["2020-06-01"]);
    ("PRECIP ", IntCol [50]); ("Month", NumCol [None]) ].

(** * Properties *)

(** ** Comparisons *)

Lemma Qgtb_true (a b : Q) : Qgtb a b = true <-> (b < a)%Q.
Proof.
  unfold Qgtb. rewrite Qgt_alt.
  destruct (a ?= b)%Q; split; congruence.
Qed.

Lemma Qgtb_false (a b : Q) : Qgtb a b = false <-> (a <= b)%Q.
Proof.
  rewrite <- not_true_iff_false, Qgtb_true. split.
  - apply Qnot_lt_le.
  - apply Qle_not_lt.
Qed.

Lemma Qltb_true (a b : Q) : Qltb a b = true <-> (a < b)%Q.
Proof.
  unfold Qltb. rewrite Qlt_alt.
  destruct (a ?= b)%Q; split; congruence.
Qed.

Lemma Qltb_false (a b : Q) : Qltb a b = false <-> (b <= a)%Q.
Proof.
  rewrite <- not_true_iff_false, Qltb_true. split.
  - apply Qnot_lt_le.
  - apply Qle_not_lt.
Qed.

(** ** Sums *)

Lemma Qsum_app (l1 l2 : list Q) : (Qsum (l1 ++ l2) == Qsum l1 + Qsum l2)%Q.
Proof.
  induction l1 as [|x l1 IH]; simpl.
  - ring.
  - rewrite IH. ring.
Qed.

Lemma Qsum_nonneg (l : list Q) : Forall (fun x => 0 <= x)%Q l -> (0 <= Qsum l)%Q.
Proof.
  induction 1 as [|x l Hx _ IH]; simpl.
  - apply Qle_refl.
  - lra.
Qed.

Lemma Qsum_shift (l : list Q) (a : Q) :
  (Qsum (map (fun x => x - a) l) == Qsum l - inject_Z (Z.of_nat (List.length l)) * a)%Q.
Proof.
  induction l as [|x l IH].
  - simpl. ring.
  - cbn [map Qsum fold_right List.length]. fold (Qsum (map (fun x => x - a)%Q l)).
    fold (Qsum l). rewrite IH, Nat2Z.inj_succ. unfold Z.succ.
    rewrite inject_Z_plus. ring.
Qed.

(** ** Series built by [group_add] *)

Lemma index_group_add (k : Z) (v : Q) (s : series) (x : Z) :
  In x (index (group_add k v s)) -> x = k \/ In x (index s).
Proof.
  induction s as [|[k' v'] t IH]; simpl.
  - intros [H|[]]; auto.
  - destruct (k <? k'); [|destruct (k =? k')]; simpl; intuition.
Qed.

Lemma group_add_ascending (k : Z) (v : Q) (s : series) :
  ascending s -> ascending (group_add k v s).
Proof.
  unfold ascending.
  induction s as [|[k' v'] t IH]; simpl; intros Hs.
  - repeat constructor.
  - inversion Hs as [|? ? Ht Hall]; subst.
    destruct (Z.ltb_spec k k') as [Hlt|Hge].
    + simpl. constructor; [exact Hs|].
      constructor; [exact Hlt|].
      eapply Forall_impl; [|exact Hall]. simpl. intros; lia.
    + destruct (Z.eqb_spec k k') as [->|Hne]; simpl.
      * constructor; assumption.
      * constructor; [auto|].
        apply Forall_forall. intros x Hx.
        apply index_group_add in Hx. destruct Hx as [->|Hx]; [lia|].
        rewrite Forall_forall in Hall. auto.
Qed.

Lemma ascending_NoDup (s : series) : ascending s -> NoDup (index s).
Proof.
  unfold ascending. induction 1 as [|k l _ IH Hall]; constructor; auto.
  intros Hin. rewrite Forall_forall in Hall. specialize (Hall _ Hin). lia.
Qed.

Lemma Qsum_group_add (k : Z) (v : Q) (s : series) :
  (Qsum (values (group_add k v s)) == Qsum (values s) + v)%Q.
Proof.
  induction s as [|[k' v'] t IH]; simpl.
  - ring.
  - destruct (k <? k'); [|destruct (k =? k')]; simpl.
    + ring.
    + ring.
    + fold (values (group_add k v t)). fold (Qsum (values (group_add k v t))).
      rewrite IH. fold (values t). fold (Qsum (values t)). ring.
Qed.

Lemma group_add_nonempty (k : Z) (v : Q) (s : series) : group_add k v s <> [].
Proof.
  destruct s as [|[k' v'] t]; simpl; [discriminate|].
  destruct (k <? k'); [|destruct (k =? k')]; discriminate.
Qed.

Lemma lookup_In (k : Z) (v : Q) (s : series) : lookup k s = Some v -> In (k, v) s.
Proof.
  induction s as [|[k' v'] t IH]; simpl; [discriminate|].
  destruct (Z.eqb_spec k k') as [->|]; [intros [= ->]|]; auto.
Qed.

Lemma In_lookup (k : Z) (v : Q) (s : series) :
  NoDup (index s) -> In (k, v) s -> lookup k s = Some v.
Proof.
  induction s as [|[k' v'] t IH]; simpl; [intros _ []|].
  intros Hnd [Heq|Hin]; inversion Hnd as [|? ? Hnotin Hnd']; subst.
  - injection Heq as -> ->. now rewrite Z.eqb_refl.
  - destruct (Z.eqb_spec k k') as [->|]; [|auto].
    exfalso. apply Hnotin. change k' with (fst (k', v)). now apply in_map.
Qed.

Lemma lookup_None (k : Z) (s : series) : lookup k s = None <-> ~ In k (index s).
Proof.
  induction s as [|[k' v'] t IH]; simpl; [tauto|].
  destruct (Z.eqb_spec k k') as [->|Hne].
  - split; [discriminate|]. intros H. exfalso. auto.
  - rewrite IH. intuition congruence.
Qed.

(** What [group_add] leaves under each label. *)
Lemma lookup_group_add (k : Z) (v : Q) (s : series) (k' : Z) :
  ascending s ->
  lookup k' (group_add k v s)
  = if k' =? k
    then Some (match lookup k s with Some old => (old + v)%Q | None => v end)
    else lookup k' s.
Proof.
  unfold ascending.
  induction s as [|[k0 v0] t IH]; simpl; intros Hs.
  - destruct (k' =? k); reflexivity.
  - inversion Hs as [|? ? Ht Hall]; subst.
    destruct (Z.ltb_spec k k0) as [Hlt|Hge]; simpl.
    + clear IH. destruct (Z.eqb_spec k' k) as [_|_]; [|reflexivity].
      destruct (Z.eqb_spec k k0) as [->|_]; [lia|].
      assert (Hnone : lookup k t = None).
      { apply lookup_None. intros Hin. rewrite Forall_forall in Hall.
        specialize (Hall _ Hin). lia. }
      now rewrite Hnone.
    + destruct (Z.eqb_spec k k0) as [->|Hne]; simpl.
      * destruct (Z.eqb_spec k' k0); reflexivity.
      * rewrite (IH Ht).
        destruct (Z.eqb_spec k' k0) as [->|_]; [|reflexivity].
        destruct (Z.eqb_spec k0 k); [congruence|reflexivity].
Qed.

Lemma filter_none {A} (f : A -> bool) (l : list A) :
  existsb f l = false -> filter f l = [].
Proof.
  induction l as [|x l IH]; simpl; [reflexivity|].
  destruct (f x); simpl; [discriminate|exact IH].
Qed.

(** ** Grouping by a key *)

Section GroupBy.

Variable key : row -> Z.

Lemma groupby_sum_snoc (rows : list row) (r : row) :
  groupby_sum key (rows ++ [r])
  = group_add (key r) (skipna (rainfall r)) (groupby_sum key rows).
Proof.
  unfold groupby_sum. rewrite fold_left_app. reflexivity.
Qed.

Lemma groupby_sum_ascending (rows : list row) :
  ascending (groupby_sum key rows).
Proof.
  induction rows as [|r rows IH] using rev_ind.
  - constructor.
  - rewrite groupby_sum_snoc. now apply group_add_ascending.
Qed.

Lemma groupby_sum_nonempty (rows : list row) :
  rows <> [] -> groupby_sum key rows <> [].
Proof.
  destruct rows as [|r rows] using rev_ind; [congruence|].
  intros _. rewrite groupby_sum_snoc. apply group_add_nonempty.
Qed.

Lemma existsb_key_In (rows : list row) (k : Z) :
  existsb (fun r => key r =? k) rows = true <-> In k (map key rows).
Proof.
  rewrite existsb_exists, in_map_iff.
  split; intros [r [H1 H2]]; exists r.
  - apply Z.eqb_eq in H2. tauto.
  - split; [tauto|]. apply Z.eqb_eq. tauto.
Qed.

(** A grouped series has exactly the keys that occur, each with the sum of
    its rows. *)
Lemma lookup_groupby_sum (rows : list row) (k : Z) :
  match lookup k (groupby_sum key rows) with
  | Some v => existsb (fun r => key r =? k) rows = true
              /\ (v == Qsum (rain_where key k rows))%Q
  | None => existsb (fun r => key r =? k) rows = false
  end.
Proof.
  induction rows as [|r rows IH] using rev_ind; [reflexivity|].
  rewrite groupby_sum_snoc, lookup_group_add by apply groupby_sum_ascending.
  unfold rain_where in *. rewrite existsb_app, filter_app, map_app.
  simpl. rewrite (Z.eqb_sym (key r) k).
  destruct (Z.eqb_spec k (key r)) as [->|Hne]; simpl.
  - destruct (lookup (key r) (groupby_sum key rows)) as [old|].
    + destruct IH as [_ IH]. split; [apply orb_true_r|].
      rewrite Qsum_app, IH. simpl. ring.
    + split; [apply orb_true_r|].
      rewrite (filter_none _ _ IH). simpl. ring.
  - rewrite orb_false_r, app_nil_r.
    destruct (lookup k (groupby_sum key rows)); exact IH.
Qed.

Lemma In_index_groupby_sum (rows : list row) (k : Z) :
  In k (index (groupby_sum key rows)) <-> In k (map key rows).
Proof.
  pose proof (lookup_groupby_sum rows k) as H.
  pose proof (lookup_None k (groupby_sum key rows)) as Hn.
  rewrite <- existsb_key_In.
  destruct (lookup k (groupby_sum key rows)) as [v|] eqn:E.
  - split; [intros _; apply H|intros _].
    apply lookup_In in E. change k with (fst (k, v)). now apply in_map.
  - rewrite H. split; [|discriminate].
    intros Hin. exfalso. now apply Hn.
Qed.

Lemma Qsum_groupby_sum (rows : list row) :
  (Qsum (values (groupby_sum key rows)) == column_sum rows)%Q.
Proof.
  unfold column_sum.
  induction rows as [|r rows IH] using rev_ind; [reflexivity|].
  rewrite groupby_sum_snoc, Qsum_group_add, map_app, Qsum_app, IH.
  simpl. ring.
Qed.

End GroupBy.

Create HintDb grouping.
#[local] Hint Resolve groupby_sum_ascending ascending_NoDup : grouping.

(** ** Yearly totals and anomalies *)

(** C8: grouping by year partitions the rows.  The index of the yearly
    series lists each year of the dataset once, and the yearly totals add
    up to the sum of the whole rainfall column. *)
Theorem yearly_totals_partition_rows (rows : list row) :
  NoDup (index (yearly_rain rows))
  /\ (forall y, In y (index (yearly_rain rows)) <-> In y (map year rows))
  /\ (Qsum (values (yearly_rain rows)) == column_sum rows)%Q.
Proof.
  unfold yearly_rain. split; [|split].
  - apply ascending_NoDup, groupby_sum_ascending.
  - intros y. apply In_index_groupby_sum.
  - apply Qsum_groupby_sum.
Qed.

Lemma lookup_series_sub (k : Z) (s : series) (a : Q) :
  lookup k (series_sub s a) = option_map (fun v => (v - a)%Q) (lookup k s).
Proof.
  induction s as [|[k' v'] t IH]; simpl; [reflexivity|].
  destruct (k =? k'); [reflexivity|exact IH].
Qed.

Lemma values_series_sub (s : series) (a : Q) :
  values (series_sub s a) = map (fun v => (v - a)%Q) (values s).
Proof.
  unfold values, series_sub. rewrite !map_map. reflexivity.
Qed.

Lemma index_series_sub (s : series) (a : Q) : index (series_sub s a) = index s.
Proof.
  unfold index, series_sub. rewrite map_map. reflexivity.
Qed.

Lemma years_positive (rows : list row) :
  rows <> [] -> (0 < Z.of_nat (List.length (values (yearly_rain rows))))%Z.
Proof.
  intros H. apply (groupby_sum_nonempty year) in H.
  unfold yearly_rain, values.
  destruct (groupby_sum year rows); [congruence|simpl; lia].
Qed.

(** C7: on a non-empty dataset the anomaly of each year is its total minus
    the multi-year average, the average being the mean of the yearly
    totals, and the anomalies add up to zero (in exact arithmetic). *)
Theorem anomalies_sum_to_zero (rows : list row) :
  rows <> [] ->
  (forall y, lookup y (anomaly rows)
             = option_map (fun total => (total - avg_rain rows)%Q)
                          (lookup y (yearly_rain rows)))
  /\ (avg_rain rows * inject_Z (Z.of_nat (List.length (yearly_rain rows)))
      == Qsum (values (yearly_rain rows)))%Q
  /\ (Qsum (values (anomaly rows)) == 0)%Q.
Proof.
  intros Hrows.
  pose proof (years_positive rows Hrows) as Hn.
  assert (Hq : ~ (inject_Z (Z.of_nat (List.length (values (yearly_rain rows)))) == 0)%Q).
  { intros H. unfold Qeq in H. simpl in H. lia. }
  split; [|split].
  - intros y. apply lookup_series_sub.
  - assert (Hlen : List.length (values (yearly_rain rows)) = List.length (yearly_rain rows))
      by apply length_map.
    unfold avg_rain, mean. rewrite Hlen in *. field. exact Hq.
  - unfold anomaly. rewrite values_series_sub, Qsum_shift.
    unfold avg_rain, mean. field. exact Hq.
Qed.

Lemma anomalies_sum_to_zero_witness :
  three_years <> []
  /\ (forall y, lookup y (anomaly three_years)
                = option_map (fun total => (total - avg_rain three_years)%Q)
                             (lookup y (yearly_rain three_years)))
  /\ (avg_rain three_years * inject_Z (Z.of_nat (List.length (yearly_rain three_years)))
      == Qsum (values (yearly_rain three_years)))%Q
  /\ (Qsum (values (anomaly three_years)) == 0)%Q.
Proof.
  split; [discriminate|].
  apply (anomalies_sum_to_zero three_years). discriminate.
Defined.

(** ** Monthly profile and wettest month *)

Lemma index_series_div (s : series) (a : Q) : index (series_div s a) = index s.
Proof.
  unfold index, series_div. rewrite map_map. reflexivity.
Qed.

Lemma lookup_series_div (k : Z) (s : series) (a : Q) :
  lookup k (series_div s a) = option_map (fun v => (v / a)%Q) (lookup k s).
Proof.
  induction s as [|[k' v'] t IH]; simpl; [reflexivity|].
  destruct (k =? k'); [reflexivity|exact IH].
Qed.

Lemma monthly_avg_ascending (rows : list row) : ascending (monthly_avg rows).
Proof.
  unfold ascending, monthly_avg. rewrite index_series_div.
  apply groupby_sum_ascending.
Qed.

(** The running scan returns the first label that carries the largest
    value of the entries it has seen and is still to see. *)
Lemma idxmax_from_spec (t : series) :
  forall best : Z * Q,
    ascending (best :: t) ->
    exists v,
      In (idxmax_from best t, v) (best :: t)
      /\ forall k' v', In (k', v') (best :: t) ->
           (v' <= v)%Q /\ ((v' == v)%Q -> idxmax_from best t <= k').
Proof.
  unfold ascending.
  induction t as [|[k1 v1] t IH]; intros [kb vb] Hs; simpl.
  - exists vb. split; [auto|].
    intros k' v' [[= <- <-]|[]]. split; [apply Qle_refl|lia].
  - simpl in Hs. inversion Hs as [|? ? Hs1 Hall]; subst.
    inversion Hall as [|? ? Hlt Hall']; subst.
    inversion Hs1 as [|? ? Hst _]; subst.
    destruct (Qgtb v1 vb) eqn:Hcmp.
    + apply Qgtb_true in Hcmp.
      destruct (IH (k1, v1) Hs1) as [v [Hin Hmax]].
      exists v. split; [right; exact Hin|].
      intros k' v' [[= <- <-]|Hin'].
      * destruct (Hmax k1 v1 (or_introl eq_refl)) as [Hle _].
        split; [lra|]. intros Heq. rewrite Heq in Hcmp. lra.
      * now apply Hmax.
    + apply Qgtb_false in Hcmp.
      assert (Hsb : StronglySorted Z.lt (index ((kb, vb) :: t)))
        by (simpl; constructor; assumption).
      destruct (IH (kb, vb) Hsb) as [v [Hin Hmax]].
      exists v. split.
      * destruct Hin as [Hin|Hin]; [left; exact Hin|right; right; exact Hin].
      * intros k' v' [Hb|[[= <- <-]|Hin']].
        -- apply Hmax. left. exact Hb.
        -- destruct (Hmax kb vb (or_introl eq_refl)) as [Hle Htie].
           split; [lra|]. intros Heq.
           assert (Hk : idxmax_from (kb, vb) t <= kb) by (apply Htie; lra).
           lia.
        -- apply Hmax. right. exact Hin'.
Qed.

Lemma monthly_avg_nonempty (rows : list row) : rows <> [] -> monthly_avg rows <> [].
Proof.
  intros Hrows H. unfold monthly_avg, series_div in H. apply map_eq_nil in H.
  revert H. now apply groupby_sum_nonempty.
Qed.

Lemma idxmax_first_argmax (s : series) :
  ascending s -> s <> [] ->
  exists k v,
    idxmax s = inr k
    /\ In (k, v) s
    /\ forall k' v', In (k', v') s -> (v' <= v)%Q /\ ((v' == v)%Q -> k <= k').
Proof.
  intros Hasc Hne. destruct s as [|best t]; [congruence|].
  destruct (idxmax_from_spec t best Hasc) as [v [Hin Hmax]].
  exists (idxmax_from best t), v. simpl. auto.
Qed.

(** C5: the wettest month is a month of the profile that carries the
    largest monthly average, and among the months that tie for it the one
    with the lowest index. *)
Theorem wettest_month_first_argmax (rows : list row) :
  rows <> [] ->
  exists m v,
    idxmax (monthly_avg rows) = inr m
    /\ In (m, v) (monthly_avg rows)
    /\ forall m' v', In (m', v') (monthly_avg rows) ->
         (v' <= v)%Q /\ ((v' == v)%Q -> m <= m').
Proof.
  intros Hrows. apply idxmax_first_argmax.
  - apply monthly_avg_ascending.
  - now apply monthly_avg_nonempty.
Qed.

Lemma wettest_month_first_argmax_witness :
  three_years <> []
  /\ exists m v,
       idxmax (monthly_avg three_years) = inr m
       /\ In (m, v) (monthly_avg three_years)
       /\ forall m' v', In (m', v') (monthly_avg three_years) ->
            (v' <= v)%Q /\ ((v' == v)%Q -> m <= m').
Proof.
  split; [discriminate|].
  apply (wettest_month_first_argmax three_years). discriminate.
Defined.

(** On [three_years] March and July tie at 40 mm and March is chosen. *)
Example wettest_month_tie :
  monthly_avg three_years = [(1, 0 # 3); (3, 120 # 3); (7, 120 # 3); (11, 125 # 30)]
  /\ idxmax (monthly_avg three_years) = inr 3.
Proof. split; reflexivity. Qed.

(** The single June observation: one Normal year, June the wettest month. *)
Example june_2020_report :
  summary_data (yearly_rain june_2020) (anomaly june_2020) (avg_rain june_2020)
  = inr [mkTableRow 2020 "50.00" "Normal"]
  /\ monthly_avg june_2020 = [(6, 50%Q)]
  /\ (wettest <- idxmax (monthly_avg june_2020) ;; month_name wettest)%result = inr "June"
  /\ outcome (app (fun _ => inr june_2020_csv) iso_to_datetime) = Done tt.
Proof. repeat split; reflexivity. Qed.

(** C3, as stated, fails: the profile of the single June observation has
    no entry for January, so the twelve months are not all present. *)
Lemma absent_month_is_omitted :
  ~ (forall m, 1 <= m <= 12 ->
       exists v, lookup m (monthly_avg june_2020) = Some v
                 /\ (m <> 6 -> (v == 0)%Q)).
Proof.
  intros H. destruct (H 1) as [v [Hv _]]; [lia|]. discriminate Hv.
Qed.

(** ** Workbook *)

Lemma mapM_total {A B} (f : A -> result B) (g : A -> B) (l : list A) :
  (forall a, In a l -> f a = inr (g a)) -> mapM f l = inr (map g l).
Proof.
  induction l as [|a l IH]; simpl; intros H; [reflexivity|].
  rewrite (H a) by auto. simpl. rewrite IH by auto. reflexivity.
Qed.

Lemma combine_mapM_fst {A B C} (f : A -> result B) (h : C -> A) (l : list C) :
  forall bs, mapM f (map h l) = inr bs -> map fst (combine l bs) = l.
Proof.
  induction l as [|c l IH]; simpl; intros bs H; [reflexivity|].
  destruct (f (h c)) as [e|b]; simpl in H; [discriminate|].
  destruct (mapM f (map h l)) as [e|bs'] eqn:E; simpl in H; [discriminate|].
  injection H as <-. simpl. f_equal. now apply IH.
Qed.

(** The three sheets, once the month names of the profile are found. *)
Lemma create_excel_report_sheets (yearly_data : list table_row) (monthly_data : series)
    (avg : Q) (wet_month text : string) (names : list string) :
  mapM month_name (index monthly_data) = inr names ->
  create_excel_report yearly_data monthly_data avg wet_month text
  = inr [ mkSheet "1_Yearly_Trends" ["Year"; "Total Rainfall (mm)"; "Status"]
            (map (fun r => [Int (Year r); Text (Rainfall_mm r);
                            Text (strip_qualifier (Status r))]) yearly_data);
          mkSheet "2_Monthly_Seasonality"
            ["Month Index"; "Month Name"; "Average Rainfall (mm)"]
            (map (fun x => [Int (fst (fst x)); Text (snd x); Float (snd (fst x))])
                 (combine monthly_data names));
          mkSheet "3_Key_Insights" ["Metric"; "Value"]
            [ [Text "7-Year Average Rainfall"; Text (format_fixed 2 avg ++ " mm")];
              [Text "Wettest Month"; Text wet_month];
              [Text "Main Recommendation"; Text text] ] ].
Proof.
  intros H. unfold create_excel_report. rewrite H. reflexivity.
Qed.

Lemma mapM_Forall2 {A B C} (f : A -> result B) (h : C -> A) (l : list C) :
  forall bs, mapM f (map h l) = inr bs -> Forall2 (fun x b => f (h x) = inr b) l bs.
Proof.
  induction l as [|c l IH]; simpl; intros bs H.
  - injection H as <-. constructor.
  - destruct (f (h c)) as [e|b] eqn:Eb; simpl in H; [discriminate|].
    destruct (mapM f (map h l)) as [e|bs'] eqn:E; simpl in H; [discriminate|].
    injection H as <-. constructor; [exact Eb|now apply IH].
Qed.

Lemma Forall2_combine_map {A B C} (R : A -> B -> Prop) (g : A * B -> C)
    (l : list A) (bs : list B) :
  Forall2 R l bs ->
  Forall2 (fun x line => exists b, R x b /\ line = g (x, b)) l (map g (combine l bs)).
Proof.
  induction 1 as [|x b l bs Hxb _ IH]; simpl; constructor; [|exact IH].
  exists b. auto.
Qed.

Lemma month_names_of_profile (rows : list row) :
  Forall (fun r => 1 <= month r <= 12) rows ->
  exists names, mapM month_name (index (monthly_avg rows)) = inr names.
Proof.
  intros Hmonths.
  assert (Hm : forall m, In m (index (monthly_avg rows)) -> 1 <= m <= 12).
  { intros m Hin. unfold monthly_avg, monthly_total, index, series_div in Hin.
    rewrite map_map in Hin. cbn [fst] in Hin.
    apply (In_index_groupby_sum month), in_map_iff in Hin.
    destruct Hin as [r [<- Hr]]. rewrite Forall_forall in Hmonths. auto. }
  induction (index (monthly_avg rows)) as [|k l IH]; simpl.
  - now exists [].
  - assert (Hk : 1 <= k <= 12) by (apply Hm; left; reflexivity).
    destruct IH as [names IH]; [intros m Hin; apply Hm; right; exact Hin|].
    unfold month_name at 1, list_getitem.
    destruct (Z.ltb_spec k 0) as [|_]; [lia|].
    destruct (Z.ltb_spec k 0) as [|_]; [lia|].
    destruct (nth_error month_names (Z.to_nat k)) as [name|] eqn:E.
    + simpl. rewrite IH. simpl. now exists (name :: names).
    + apply nth_error_None in E. simpl in E. lia.
Qed.

(** C3, amended: the monthly profile has exactly one entry for each month
    that occurs in the dataset, in ascending month order, holding the
    rainfall of the rows of that month over the year span; a month without
    rows is left out.  With calendar months the Monthly Seasonality sheet
    is written with one line per profile entry, in the same order: month
    index, month name, average.  The single June observation gives the
    one-entry profile June = 50. *)
Theorem monthly_profile_lists_present_months (rows : list row) (m : Z) :
  StronglySorted Z.lt (index (monthly_avg rows))
  /\ NoDup (index (monthly_avg rows))
  /\ (In m (index (monthly_avg rows)) <-> In m (map month rows))
  /\ match lookup m (monthly_avg rows) with
     | Some v => In m (map month rows)
                 /\ (v == Qsum (rain_where month m rows) / inject_Z (year_span rows))%Q
     | None => ~ In m (map month rows)
     end
  /\ (Forall (fun r => 1 <= month r <= 12) rows ->
      forall yearly_data avg wet_month text,
      exists s1 s2 s3,
        create_excel_report yearly_data (monthly_avg rows) avg wet_month text
        = inr [s1; s2; s3]
        /\ sheet_name s2 = "2_Monthly_Seasonality"
        /\ Forall2 (fun kv line =>
                      exists name,
                        month_name (fst kv) = inr name
                        /\ line = [Int (fst kv); Text name; Float (snd kv)])
                   (monthly_avg rows) (body s2))
  /\ (forall yearly_data avg wet_month text,
        match create_excel_report yearly_data (monthly_avg rows) avg wet_month text with
        | inr wb => option_map (fun s => map (hd (Text "")) (body s)) (nth_error wb 1)
                    = Some (map Int (index (monthly_avg rows)))
        | inl _ => True
        end)
  /\ monthly_avg june_2020 = [(6, 50%Q)].
Proof.
  assert (Hasc : StronglySorted Z.lt (index (monthly_avg rows))).
  { unfold monthly_avg, index, series_div. rewrite map_map. cbn [fst].
    apply (groupby_sum_ascending month). }
  split; [exact Hasc|].
  split; [now apply ascending_NoDup|].
  split.
  { unfold monthly_avg, monthly_total, index, series_div. rewrite map_map. cbn [fst].
    apply (In_index_groupby_sum month). }
  split; [|split; [|split; [|reflexivity]]].
  - unfold monthly_avg, monthly_total. rewrite lookup_series_div.
    pose proof (lookup_groupby_sum month rows m) as H.
    destruct (lookup m (groupby_sum month rows)) as [v|]; simpl.
    + destruct H as [H1 H2]. split; [now apply existsb_key_In|]. now rewrite H2.
    + rewrite <- existsb_key_In, H. discriminate.
  - intros Hmonths yearly_data avg wet_month text.
    destruct (month_names_of_profile rows Hmonths) as [names Hnames].
    rewrite (create_excel_report_sheets _ _ _ _ _ _ Hnames).
    do 3 eexists. split; [reflexivity|]. split; [reflexivity|].
    cbn [body]. apply mapM_Forall2 in Hnames.
    apply (Forall2_combine_map (fun kv name => month_name (fst kv) = inr name)
             (fun x => [Int (fst (fst x)); Text (snd x); Float (snd (fst x))])) in Hnames.
    exact Hnames.
  - intros yearly_data avg wet_month text.
    destruct (mapM month_name (index (monthly_avg rows))) as [e|names] eqn:E.
    + unfold create_excel_report. rewrite E. exact I.
    + rewrite (create_excel_report_sheets _ _ _ _ _ _ E). simpl. f_equal.
      rewrite map_map. simpl.
      apply combine_mapM_fst in E. unfold index. rewrite <- E at 2.
      rewrite !map_map. reflexivity.
Qed.

(** The profile and the sheet of [three_years]: four months, ascending. *)
Lemma monthly_profile_lists_present_months_witness :
  Forall (fun r => 1 <= month r <= 12) three_years
  /\ index (monthly_avg three_years) = [1; 3; 7; 11]
  /\ exists s1 s2 s3,
       create_excel_report [] (monthly_avg three_years) 0 "March" "" = inr [s1; s2; s3]
       /\ sheet_name s2 = "2_Monthly_Seasonality"
       /\ Forall2 (fun kv line =>
                     exists name,
                       month_name (fst kv) = inr name
                       /\ line = [Int (fst kv); Text name; Float (snd kv)])
                  (monthly_avg three_years) (body s2).
Proof.
  assert (H : Forall (fun r => 1 <= month r <= 12) three_years)
    by (repeat constructor; simpl; lia).
  split; [exact H|]. split; [reflexivity|].
  exact (proj1 (proj2 (proj2 (proj2 (proj2
           (monthly_profile_lists_present_months three_years 1))))) H [] 0%Q "March" "").
Defined.

(** ** Classification of the years *)

Lemma group_add_nonneg (k : Z) (v : Q) (s : series) :
  (0 <= v)%Q -> Forall (fun x => 0 <= x)%Q (values s) ->
  Forall (fun x => 0 <= x)%Q (values (group_add k v s)).
Proof.
  intros Hv. induction s as [|[k' v'] t IH]; simpl; intros Hs.
  - repeat constructor. exact Hv.
  - inversion Hs as [|? ? Hv' Ht]; subst.
    destruct (k <? k'); [|destruct (k =? k')]; simpl.
    + constructor; assumption.
    + constructor; [lra|assumption].
    + constructor; [assumption|]. now apply IH.
Qed.

Lemma avg_rain_nonneg (rows : list row) :
  Forall (fun r => 0 <= skipna (rainfall r))%Q rows -> (0 <= avg_rain rows)%Q.
Proof.
  intros Hrows. unfold avg_rain, mean, Qdiv.
  apply Qmult_le_0_compat.
  - apply Qsum_nonneg. unfold yearly_rain.
    induction rows as [|r rows IH] using rev_ind; [constructor|].
    apply Forall_app in Hrows. destruct Hrows as [Hrows Hr].
    rewrite groupby_sum_snoc. apply group_add_nonneg; [|now apply IH].
    now inversion Hr.
  - apply Qinv_le_0_compat. unfold Qle. simpl. lia.
Qed.

(** The band rule, for an average that is not negative. *)
Lemma status_of_band (a avg : Q) :
  (0 <= avg)%Q ->
  (status_of a avg = "Wet (Above Average)" <-> (0.15 * avg < a)%Q)
  /\ (status_of a avg = "Dry (Below Average)" <-> (a < - (0.15 * avg))%Q)
  /\ (status_of a avg = "Normal"
      <-> ~ (0.15 * avg < a)%Q /\ ~ (a < - (0.15 * avg))%Q).
Proof.
  intros Havg. unfold status_of.
  destruct (Qgtb a (avg * 0.15)) eqn:Hw;
    [apply Qgtb_true in Hw
    |apply Qgtb_false in Hw; destruct (Qltb a (- (avg * 0.15))) eqn:Hd;
     [apply Qltb_true in Hd|apply Qltb_false in Hd]];
    repeat split; try discriminate; intros; lra.
Qed.

Lemma Forall2_map_in {A B} (P : A -> B -> Prop) (g : A -> B) (l : list A) :
  (forall a, In a l -> P a (g a)) -> Forall2 P l (map g l).
Proof.
  induction l as [|a l IH]; simpl; intros H; constructor; auto.
Qed.

(** The loop finds the anomaly of every year it visits, so it builds one
    table row per year and raises nothing. *)
Lemma summary_data_rows (s : series) (avg : Q) :
  ascending s ->
  summary_data s (series_sub s avg) avg
  = inr (map (fun item => {| Year := fst item;
                             Rainfall_mm := format_fixed 2 (snd item);
                             Status := status_of (snd item - avg) avg |}) s).
Proof.
  intros Hs. unfold summary_data. apply mapM_total.
  intros [y total] Hin. unfold getitem. cbn [fst snd].
  rewrite lookup_series_sub, (In_lookup y total s) by auto with grouping.
  reflexivity.
Qed.

(** C1: every year of a dataset (rainfall not negative, as the data model
    has it) gets one table row; its status is fixed by its anomaly and the
    15% band with strict comparisons: Wet above the band, Dry below it,
    Normal otherwise, the band edges included. *)
Theorem yearly_status_by_band (rows : list row) :
  Forall (fun r => 0 <= skipna (rainfall r))%Q rows ->
  exists tbl,
    summary_data (yearly_rain rows) (anomaly rows) (avg_rain rows) = inr tbl
    /\ Forall2
         (fun item r =>
            Year r = fst item
            /\ exists a,
                 lookup (fst item) (anomaly rows) = Some a
                 /\ a = (snd item - avg_rain rows)%Q
                 /\ (Status r = "Wet (Above Average)" <-> (0.15 * avg_rain rows < a)%Q)
                 /\ (Status r = "Dry (Below Average)" <-> (a < - (0.15 * avg_rain rows))%Q)
                 /\ (Status r = "Normal"
                     <-> ~ (0.15 * avg_rain rows < a)%Q /\ ~ (a < - (0.15 * avg_rain rows))%Q)
                 /\ ((a == 0.15 * avg_rain rows)%Q \/ (a == - (0.15 * avg_rain rows))%Q ->
                     Status r = "Normal")
                 /\ (Status r = "Wet (Above Average)" \/ Status r = "Normal"
                     \/ Status r = "Dry (Below Average)"))
         (yearly_rain rows) tbl.
Proof.
  intros Hrows.
  pose proof (avg_rain_nonneg rows Hrows) as Havg.
  assert (Hasc : ascending (yearly_rain rows)) by (unfold yearly_rain; auto with grouping).
  eexists. split; [apply summary_data_rows; exact Hasc|].
  apply Forall2_map_in. intros [y total] Hin. simpl.
  split; [reflexivity|].
  exists (total - avg_rain rows)%Q.
  destruct (status_of_band (total - avg_rain rows) (avg_rain rows) Havg)
    as [Hwet [Hdry Hnormal]].
  split; [|split; [reflexivity|split; [exact Hwet|split; [exact Hdry|split; [exact Hnormal|split]]]]].
  - unfold anomaly. rewrite lookup_series_sub.
    rewrite (In_lookup y total) by auto with grouping. reflexivity.
  - intros Hedge. apply Hnormal. split; intros H; destruct Hedge as [He|He]; lra.
  - unfold status_of.
    destruct (Qgtb _ _); [|destruct (Qltb _ _)]; auto.
Qed.

Lemma yearly_status_by_band_witness :
  Forall (fun r => 0 <= skipna (rainfall r))%Q three_years
  /\ exists tbl,
    summary_data (yearly_rain three_years) (anomaly three_years) (avg_rain three_years)
    = inr tbl
    /\ Forall2
         (fun item r =>
            Year r = fst item
            /\ exists a,
                 lookup (fst item) (anomaly three_years) = Some a
                 /\ a = (snd item - avg_rain three_years)%Q
                 /\ (Status r = "Wet (Above Average)" <-> (0.15 * avg_rain three_years < a)%Q)
                 /\ (Status r = "Dry (Below Average)"
                     <-> (a < - (0.15 * avg_rain three_years))%Q)
                 /\ (Status r = "Normal"
                     <-> ~ (0.15 * avg_rain three_years < a)%Q
                         /\ ~ (a < - (0.15 * avg_rain three_years))%Q)
                 /\ ((a == 0.15 * avg_rain three_years)%Q
                     \/ (a == - (0.15 * avg_rain three_years))%Q ->
                     Status r = "Normal")
                 /\ (Status r = "Wet (Above Average)" \/ Status r = "Normal"
                     \/ Status r = "Dry (Below Average)"))
         (yearly_rain three_years) tbl.
Proof.
  assert (H : Forall (fun r => 0 <= skipna (rainfall r))%Q three_years).
  { repeat constructor; vm_compute; discriminate. }
  split; [exact H|].
  apply (yearly_status_by_band three_years H).
Defined.

(** With a negative average the two tests overlap and the first one wins:
    a year at the average is Wet although it also lies below the negated
    band. *)
Example status_of_negative_average :
  status_of 0 (-100) = "Wet (Above Average)" /\ (0 < - (0.15 * -100))%Q.
Proof. split; [reflexivity|vm_compute; reflexivity]. Qed.

(** A year exactly on the upper edge of the band is Normal. *)
Example status_on_band_edge :
  status_of 15 100 = "Normal" /\ status_of (-15) 100 = "Normal"
  /\ status_of 15.01 100 = "Wet (Above Average)".
Proof. repeat split; reflexivity. Qed.

(** ** Recommendation *)

Lemma wet_months_count (profile : series) :
  wet_months profile
  = Z.of_nat (List.length
                (filter (fun kv => if Qlt_le_dec 100 (snd kv) then true else false)
                        profile)).
Proof.
  unfold wet_months. do 2 f_equal. apply filter_ext. intros kv.
  destruct (Qlt_le_dec 100 (snd kv)) as [H|H].
  - now apply Qgtb_true.
  - now apply Qgtb_false.
Qed.

Lemma select_insight_cases (c : Z) :
  (select_insight c = favorable <-> 5 <= c)
  /\ (select_insight c = moderate <-> 3 <= c < 5)
  /\ (select_insight c = dry_risk <-> c < 3).
Proof.
  unfold select_insight.
  destruct (Z.geb_spec c 5); [|destruct (Z.geb_spec c 3)];
    repeat split; try discriminate; intros; lia.
Qed.

(** December, January and February at 150 mm and the other months at
    40 mm: three wet months, the Moderate recommendation.  A month at
    exactly 100 mm is not counted. *)
Example winter_wet_profile :
  let profile := [ (1, 150%Q); (2, 150%Q); (3, 40%Q); (4, 40%Q); (5, 40%Q); (6, 40%Q);
                   (7, 40%Q); (8, 40%Q); (9, 40%Q); (10, 40%Q); (11, 40%Q); (12, 150%Q) ] in
  wet_months profile = 3
  /\ select_insight (wet_months profile) = moderate
  /\ wet_months [(7, 100%Q); (8, 100.5%Q)] = 1.
Proof. repeat split; reflexivity. Qed.

(** ** Runs of the report *)

Ltac run_script :=
  cbn [lift then_ fst snd List.app emit done stop outcome rendered alerts List.length].

(** A run in which no lookup fails shows the twelve widgets in order. *)
Lemma report_done (df : frame) (rows : list row) (idx : Z) (name : string)
    (summary : list table_row) (wb : workbook) :
  observations df = inr rows ->
  idxmax (monthly_avg rows) = inr idx ->
  month_name idx = inr name ->
  summary_data (yearly_rain rows) (anomaly rows) (avg_rain rows) = inr summary ->
  create_excel_report summary (monthly_avg rows) (avg_rain rows) name
    (insight_text (select_insight (wet_months (monthly_avg rows)))) = inr wb ->
  report df
  = ([ subheader "1. General Statistics";
       metric "Annual Average" (format_fixed 1 (avg_rain rows) ++ " mm");
       metric "Wettest Month" name;
       metric "Peak Avg. Monthly Rain"
         (format_fixed 1 (series_max (monthly_avg rows)) ++ " mm");
       subheader "2. Yearly Trends (Deviation from Average)";
       table summary;
       subheader "3. Agricultural Recommendations";
       alert (level (select_insight (wet_months (monthly_avg rows))))
         (banner (select_insight (wet_months (monthly_avg rows)))
            ++ insight_text (select_insight (wet_months (monthly_avg rows))));
       subheader "4. Visualizations";
       pyplot {| bars := map (fun kv => (fst kv, snd kv, bar_color (snd kv))) (anomaly rows);
                 bars_title := "Yearly Rainfall Anomaly vs. 7-Year Average";
                 profile_line := monthly_avg rows;
                 profile_title := "Average Monthly Rainfall (Seasonality)";
                 xticks := months_1_12;
                 xticklabels := tl month_abbr |};
       write "---";
       download_button "📥 Download Full Report (.xlsx)" wb
         "bejin_rainfall_report.xlsx"
         "application/vnd.openxmlformats-officedocument.spreadsheetml.sheet" ],
     Done tt).
Proof.
  intros Hobs Hidx Hname Hsum Hwb. unfold report.
  rewrite Hobs. run_script.
  rewrite Hidx. run_script.
  rewrite Hname. run_script.
  rewrite Hsum. run_script.
  change (mapM (list_getitem month_abbr) months_1_12) with (@inr exn _ (tl month_abbr)).
  run_script.
  rewrite Hwb. reflexivity.
Qed.

Lemma month_name_found (m : Z) :
  1 <= m <= 12 -> exists name, month_name m = inr name.
Proof.
  intros Hm. unfold month_name, list_getitem.
  destruct (Z.ltb_spec m 0) as [|_]; [lia|].
  destruct (Z.ltb_spec m 0) as [|_]; [lia|].
  destruct (nth_error month_names (Z.to_nat m)) as [name|] eqn:E.
  - now exists name.
  - apply nth_error_None in E. simpl in E. lia.
Qed.

Lemma month_names_found (l : list Z) :
  Forall (fun m => 1 <= m <= 12) l -> exists names, mapM month_name l = inr names.
Proof.
  induction 1 as [|m l Hm _ [names IH]]; simpl.
  - now exists [].
  - destruct (month_name_found m Hm) as [name ->]. rewrite IH. simpl.
    now exists (name :: names).
Qed.

Lemma monthly_avg_months (rows : list row) (m : Z) :
  Forall (fun r => 1 <= month r <= 12) rows ->
  In m (index (monthly_avg rows)) -> 1 <= m <= 12.
Proof.
  intros Hrows Hin. unfold monthly_avg, monthly_total in Hin.
  rewrite index_series_div in Hin. apply In_index_groupby_sum in Hin.
  apply in_map_iff in Hin. destruct Hin as [r [<- Hr]].
  rewrite Forall_forall in Hrows. auto.
Qed.

(** On a dataset with at least one row and calendar months the report
    runs to its end. *)
Lemma report_completes (df : frame) (rows : list row) :
  observations df = inr rows ->
  rows <> [] ->
  Forall (fun r => 1 <= month r <= 12) rows ->
  exists idx name names,
    idxmax (monthly_avg rows) = inr idx
    /\ month_name idx = inr name
    /\ mapM month_name (index (monthly_avg rows)) = inr names.
Proof.
  intros Hobs Hne Hmonths.
  destruct (idxmax_first_argmax (monthly_avg rows)) as [idx [v [Hidx [Hin _]]]].
  { apply monthly_avg_ascending. }
  { now apply monthly_avg_nonempty. }
  assert (Hm : 1 <= idx <= 12).
  { apply (monthly_avg_months rows); [exact Hmonths|].
    change idx with (fst (idx, v)). now apply in_map. }
  destruct (month_name_found idx Hm) as [name Hname].
  destruct (month_names_found (index (monthly_avg rows))) as [names Hnames].
  { apply Forall_forall. intros m. now apply monthly_avg_months. }
  exists idx, name, names. auto.
Qed.

(** After a successful load the script shows the page header and then
    whatever the report shows. *)
Lemma app_loaded (read_csv : string -> result frame)
    (to_datetime : column -> result (list date)) (df : frame) :
  load read_csv to_datetime = inr df ->
  app read_csv to_datetime
  = ((page_header ++ rendered (report df))%list, outcome (report df)).
Proof.
  intros H. unfold app. rewrite H.
  cbn [then_ emit done fst snd List.app]. unfold rendered, outcome.
  destruct (report df) as [ws [[]| |e]]; reflexivity.
Qed.

(** A failed load shows the page header and the error box, and stops. *)
Lemma app_load_failed (read_csv : string -> result frame)
    (to_datetime : column -> result (list date)) (e : exn) :
  load read_csv to_datetime = inl e ->
  app read_csv to_datetime
  = ((page_header ++ [alert error (load_error_message e)])%list, Stopped).
Proof.
  intros H. unfold app. rewrite H. reflexivity.
Qed.

(** No run of the report shows two recommendation boxes, and a run that
    ends normally shows the one chosen from its monthly profile. *)
Lemma report_alerts (df : frame) :
  match outcome (report df), observations df with
  | Done _, inr rows =>
      alerts (rendered (report df))
      = [ (level (select_insight (wet_months (monthly_avg rows))),
           banner (select_insight (wet_months (monthly_avg rows)))
             ++ insight_text (select_insight (wet_months (monthly_avg rows)))) ]
  | Done _, inl _ => False
  | _, _ => (List.length (alerts (rendered (report df))) <= 1)%nat
  end.
Proof.
  unfold report.
  destruct (observations df) as [e|rows]; run_script; [lia|].
  destruct (idxmax (monthly_avg rows)) as [e|idx]; run_script; [lia|].
  destruct (month_name idx) as [e|name]; run_script; [lia|].
  destruct (summary_data _ _ _) as [e|summary]; run_script; [lia|].
  change (mapM (list_getitem month_abbr) months_1_12) with (@inr exn _ (tl month_abbr)).
  run_script.
  destruct (create_excel_report _ _ _ _ _) as [e|wb]; run_script; [lia|].
  reflexivity.
Qed.

(** C2: the render of a valid dataset (loaded, at least one row, calendar
    months) completes and shows exactly one recommendation box, chosen by
    the number of months whose average exceeds 100 mm strictly: the
    Favorable text on long-cycle crops like rice from five such months on,
    the Moderate text on short-cycle crops for three or four, the Dry-risk
    text on drought-resistant crops below three.  No run of the report
    shows more than one. *)
Theorem insight_by_wet_month_count (read_csv : string -> result frame)
    (to_datetime : column -> result (list date)) (df : frame) (rows : list row) :
  load read_csv to_datetime = inr df ->
  observations df = inr rows ->
  rows <> [] ->
  Forall (fun r => 1 <= month r <= 12) rows ->
  outcome (app read_csv to_datetime) = Done tt
  /\ alerts (rendered (app read_csv to_datetime))
     = [ (level (select_insight (wet_months (monthly_avg rows))),
          banner (select_insight (wet_months (monthly_avg rows)))
            ++ insight_text (select_insight (wet_months (monthly_avg rows)))) ]
  /\ (forall profile,
        wet_months profile
        = Z.of_nat (List.length
                      (filter (fun kv => if Qlt_le_dec 100 (snd kv) then true else false)
                              profile)))
  /\ (forall c,
        (select_insight c = favorable <-> 5 <= c)
        /\ (select_insight c = moderate <-> 3 <= c < 5)
        /\ (select_insight c = dry_risk <-> c < 3))
  /\ favorable
     = mkInsight success "✅ **Favorable Status:** "
         "Excellent Condition: Suitable for long-cycle crops like Rice, as the rainy season is extended."
  /\ moderate
     = mkInsight warning "⚠️ **Moderate Status:** "
         "Moderate Condition: Suitable for fast-growing crops like Maize and Beans (Short cycle) due to average rainfall duration."
  /\ dry_risk
     = mkInsight error "🛑 **Dry Status:** "
         "CAUTION: Dry area. High drought risk requires planting drought-resistant crops (Cassava, Sorghum)."
  /\ (forall df',
        match outcome (report df'), observations df' with
        | Done _, inr rows' =>
            alerts (rendered (report df'))
            = [ (level (select_insight (wet_months (monthly_avg rows'))),
                 banner (select_insight (wet_months (monthly_avg rows')))
                   ++ insight_text (select_insight (wet_months (monthly_avg rows')))) ]
        | Done _, inl _ => False
        | _, _ => (List.length (alerts (rendered (report df'))) <= 1)%nat
        end).
Proof.
  intros Hload Hobs Hne Hmonths.
  destruct (report_completes df rows Hobs Hne Hmonths)
    as [idx [name [names [Hidx [Hname Hnames]]]]].
  pose proof (summary_data_rows (yearly_rain rows) (avg_rain rows)
                (groupby_sum_ascending year rows)) as Hsum.
  fold (anomaly rows) in Hsum.
  pose proof (fun yd => create_excel_report_sheets yd (monthly_avg rows) (avg_rain rows)
                name (insight_text (select_insight (wet_months (monthly_avg rows))))
                names Hnames) as Hwb.
  rewrite (app_loaded _ _ _ Hload).
  rewrite (report_done df rows idx name _ _ Hobs Hidx Hname Hsum (Hwb _)).
  unfold outcome, rendered. cbn [fst snd].
  split; [reflexivity|]. split; [reflexivity|].
  split; [exact wet_months_count|]. split; [exact select_insight_cases|].
  split; [reflexivity|]. split; [reflexivity|]. split; [reflexivity|].
  exact report_alerts.
Qed.

Lemma insight_by_wet_month_count_witness :
  load (fun _ => inr three_years_csv) iso_to_datetime = inr three_years_df
  /\ observations three_years_df = inr three_years
  /\ three_years <> []
  /\ Forall (fun r => 1 <= month r <= 12) three_years
  /\ outcome (app (fun _ => inr three_years_csv) iso_to_datetime) = Done tt
  /\ alerts (rendered (app (fun _ => inr three_years_csv) iso_to_datetime))
     = [ (error,
          "🛑 **Dry Status:** CAUTION: Dry area. High drought risk requires planting drought-resistant crops (Cassava, Sorghum).") ].
Proof.
  assert (H1 : load (fun _ => inr three_years_csv) iso_to_datetime = inr three_years_df)
    by reflexivity.
  assert (H2 : observations three_years_df = inr three_years) by reflexivity.
  assert (H3 : three_years <> []) by discriminate.
  assert (H4 : Forall (fun r => 1 <= month r <= 12) three_years)
    by (repeat constructor; simpl; lia).
  repeat (split; [assumption|]).
  destruct (insight_by_wet_month_count _ _ _ _ H1 H2 H3 H4) as [Hdone [Halerts _]].
  split; [exact Hdone|]. rewrite Halerts. reflexivity.
Defined.

(** ** Fixed-point formatting *)

(** Rounding moves a value by at most one half. *)
Lemma round_half_even_near (x : Q) :
  (inject_Z (round_half_even x) - (1 # 2) <= x)%Q
  /\ (x <= inject_Z (round_half_even x) + (1 # 2))%Q.
Proof.
  destruct x as [n d]. unfold round_half_even. cbn [Qnum Qden].
  pose proof (Z.div_mod n (Z.pos d) ltac:(lia)) as Hdm.
  pose proof (Z.mod_pos_bound n (Z.pos d) ltac:(lia)) as Hr.
  set (f := n / Z.pos d) in *. set (r := n mod Z.pos d) in *.
  unfold Qle, Qminus, Qplus, Qopp, inject_Z. cbn [Qnum Qden].
  destruct (Z.compare_spec (2 * r) (Z.pos d)) as [He|Hl|Hg];
    [destruct (Z.even f)| |]; split; nia.
Qed.

Lemma round_half_even_nonneg (x : Q) : (0 <= x)%Q -> 0 <= round_half_even x.
Proof.
  destruct x as [n d]. unfold Qle, round_half_even. cbn [Qnum Qden]. intros Hn.
  assert (Hf : 0 <= n / Z.pos d) by (apply Z.div_pos; lia).
  destruct (2 * (n mod Z.pos d) ?= Z.pos d); [destruct (Z.even _)| |]; lia.
Qed.

Lemma decimal_value_decimal (n : Z) : 0 <= n -> decimal_value (decimal n) = Some n.
Proof.
  intros Hn. unfold decimal_value, decimal.
  rewrite NilZero.usu.
  - cbn [option_map]. rewrite DecimalN.Unsigned.of_to, Z2N.id by exact Hn. reflexivity.
  - intros H. pose proof (f_equal N.of_uint H) as H'.
    rewrite DecimalN.Unsigned.of_to in H'. cbn in H'.
    rewrite H' in H. discriminate H.
Qed.

Lemma two_digits (r : Z) :
  0 <= r < 100 ->
  String.length (zero_pad 2 (decimal r)) = 2%nat
  /\ decimal_value (zero_pad 2 (decimal r)) = Some r.
Proof.
  intros Hr.
  assert (Hall : forallb
            (fun n => Nat.eqb (String.length (zero_pad 2 (decimal (Z.of_nat n)))) 2
                      && match decimal_value (zero_pad 2 (decimal (Z.of_nat n))) with
                         | Some v => v =? Z.of_nat n
                         | None => false
                         end)
            (seq 0 100) = true) by (vm_compute; reflexivity).
  rewrite forallb_forall in Hall.
  specialize (Hall (Z.to_nat r)). rewrite Z2Nat.id in Hall by lia.
  assert (Hin : In (Z.to_nat r) (seq 0 100)) by (apply in_seq; lia).
  apply Hall, andb_true_iff in Hin. destruct Hin as [Hlen Hval].
  split; [now apply Nat.eqb_eq|].
  destruct (decimal_value (zero_pad 2 (decimal r))) as [v|]; [|discriminate].
  apply Z.eqb_eq in Hval. now subst.
Qed.

(** What [f"{q:.2f}"] writes: an optional minus sign, the digits of the
    whole part, a point and exactly two digits, which together read as the
    number of hundredths nearest to the magnitude of [q]. *)
Lemma format_fixed_two_decimals (q : Q) :
  exists whole hundredths cents,
    format_fixed 2 q = (if Qltb q 0 then "-" else "") ++ whole ++ "." ++ hundredths
    /\ String.length hundredths = 2%nat
    /\ decimal_value whole = Some (cents / 100)
    /\ decimal_value hundredths = Some (cents mod 100)
    /\ 0 <= cents
    /\ (inject_Z cents - (1 # 2) <= Qabs q * 100)%Q
    /\ (Qabs q * 100 <= inject_Z cents + (1 # 2))%Q.
Proof.
  set (cents := round_half_even (Qabs q * inject_Z 100)).
  assert (Hcents : 0 <= cents).
  { apply round_half_even_nonneg. apply Qmult_le_0_compat; [apply Qabs_nonneg|].
    unfold Qle. simpl. lia. }
  destruct (two_digits (cents mod 100)) as [Hlen Hval];
    [apply Z.mod_pos_bound; lia|].
  destruct (round_half_even_near (Qabs q * inject_Z 100)) as [Hlo Hhi].
  exists (decimal (cents / 100)), (zero_pad 2 (decimal (cents mod 100))), cents.
  split; [reflexivity|]. split; [exact Hlen|].
  split; [apply decimal_value_decimal, Z.div_pos; lia|].
  split; [exact Hval|]. split; [exact Hcents|].
  split; [exact Hlo|exact Hhi].
Qed.

(** The exported status, read off the anomaly and the average. *)
Lemma exported_status_band (a avg : Q) :
  (strip_qualifier (status_of a avg) = "Wet" <-> (avg * 0.15 < a)%Q)
  /\ (strip_qualifier (status_of a avg) = "Dry"
      <-> ~ (avg * 0.15 < a)%Q /\ (a < - (avg * 0.15))%Q)
  /\ (strip_qualifier (status_of a avg) = "Normal"
      <-> ~ (avg * 0.15 < a)%Q /\ ~ (a < - (avg * 0.15))%Q).
Proof.
  unfold status_of.
  destruct (Qgtb a (avg * 0.15)) eqn:Hw;
    [apply Qgtb_true in Hw
    |apply Qgtb_false in Hw; destruct (Qltb a (- (avg * 0.15))) eqn:Hd;
     [apply Qltb_true in Hd|apply Qltb_false in Hd]];
    change (strip_qualifier "Wet (Above Average)") with "Wet";
    change (strip_qualifier "Dry (Below Average)") with "Dry";
    change (strip_qualifier "Normal") with "Normal";
    repeat split; try discriminate; try (intros; lra); try tauto;
    intros [H1 H2]; exfalso; try (apply H1; lra); try (apply H2; lra); lra.
Qed.

(** ** Workbook and table of a completed render *)

Lemma strip_qualifier_status (a avg : Q) :
  strip_qualifier (status_of a avg)
  = if Qgtb a (avg * 0.15) then "Wet"
    else if Qltb a (- (avg * 0.15)) then "Dry"
    else "Normal".
Proof.
  unfold status_of.
  destruct (Qgtb _ _); [|destruct (Qltb _ _)]; reflexivity.
Qed.

(** C6: on a valid dataset the download carries three sheets, Yearly
    Trends, Monthly Seasonality and Key Insights in this order.  Yearly
    Trends has, per year, the year, the total as a 2-decimal string and
    the status without its parenthetical qualifier; Key Insights has three
    lines: the average to 2 decimals followed by the unit, the name of the
    wettest month, and the recommendation.  A 2-decimal string is a sign,
    whole digits, a point and two digits that read as the nearest number
    of hundredths; the stripped status is Wet, Dry or Normal by the band
    test of the year. *)
Theorem workbook_three_sheets (read_csv : string -> result frame)
    (to_datetime : column -> result (list date)) (df : frame) (rows : list row) :
  load read_csv to_datetime = inr df ->
  observations df = inr rows ->
  rows <> [] ->
  Forall (fun r => 1 <= month r <= 12) rows ->
  exists idx name s1 s2 s3,
    outcome (app read_csv to_datetime) = Done tt
    /\ In (download_button "📥 Download Full Report (.xlsx)" [s1; s2; s3]
             "bejin_rainfall_report.xlsx"
             "application/vnd.openxmlformats-officedocument.spreadsheetml.sheet")
          (rendered (app read_csv to_datetime))
    /\ map sheet_name [s1; s2; s3]
       = ["1_Yearly_Trends"; "2_Monthly_Seasonality"; "3_Key_Insights"]
    /\ header s1 = ["Year"; "Total Rainfall (mm)"; "Status"]
    /\ body s1
       = map (fun item =>
                [ Int (fst item); Text (format_fixed 2 (snd item));
                  Text (strip_qualifier
                          (status_of (snd item - avg_rain rows) (avg_rain rows))) ])
             (yearly_rain rows)
    /\ (forall a avg, strip_qualifier (status_of a avg) = "Wet"
                      \/ strip_qualifier (status_of a avg) = "Normal"
                      \/ strip_qualifier (status_of a avg) = "Dry")
    /\ strip_qualifier "Wet (Above Average)" = "Wet"
    /\ idxmax (monthly_avg rows) = inr idx
    /\ month_name idx = inr name
    /\ body s3
       = [ [Text "7-Year Average Rainfall"; Text (format_fixed 2 (avg_rain rows) ++ " mm")];
           [Text "Wettest Month"; Text name];
           [Text "Main Recommendation";
            Text (insight_text (select_insight (wet_months (monthly_avg rows))))] ]
    /\ header s3 = ["Metric"; "Value"]
    /\ (forall q,
          exists whole hundredths cents,
            format_fixed 2 q = (if Qltb q 0 then "-" else "") ++ whole ++ "." ++ hundredths
            /\ String.length hundredths = 2%nat
            /\ decimal_value whole = Some (cents / 100)
            /\ decimal_value hundredths = Some (cents mod 100)
            /\ 0 <= cents
            /\ (inject_Z cents - (1 # 2) <= Qabs q * 100)%Q
            /\ (Qabs q * 100 <= inject_Z cents + (1 # 2))%Q)
    /\ (forall a avg,
          (strip_qualifier (status_of a avg) = "Wet" <-> (avg * 0.15 < a)%Q)
          /\ (strip_qualifier (status_of a avg) = "Dry"
              <-> ~ (avg * 0.15 < a)%Q /\ (a < - (avg * 0.15))%Q)
          /\ (strip_qualifier (status_of a avg) = "Normal"
              <-> ~ (avg * 0.15 < a)%Q /\ ~ (a < - (avg * 0.15))%Q))
    /\ strip_qualifier "Dry (Below Average)" = "Dry"
    /\ strip_qualifier "Normal" = "Normal".
Proof.
  intros Hload Hobs Hne Hmonths.
  destruct (report_completes df rows Hobs Hne Hmonths)
    as [idx [name [names [Hidx [Hname Hnames]]]]].
  pose proof (summary_data_rows (yearly_rain rows) (avg_rain rows)
                (groupby_sum_ascending year rows)) as Hsum.
  fold (anomaly rows) in Hsum.
  pose proof (fun yd => create_excel_report_sheets yd (monthly_avg rows) (avg_rain rows)
                name (insight_text (select_insight (wet_months (monthly_avg rows))))
                names Hnames) as Hwb.
  rewrite (app_loaded _ _ _ Hload).
  rewrite (report_done df rows idx name _ _ Hobs Hidx Hname Hsum (Hwb _)).
  exists idx, name. do 3 eexists. unfold outcome, rendered. cbn [fst snd].
  split; [reflexivity|].
  split; [apply in_or_app; right; do 11 right; left; reflexivity|].
  cbn [map sheet_name header body].
  split; [reflexivity|]. split; [reflexivity|].
  split; [rewrite map_map; reflexivity|].
  split.
  { intros a avg. rewrite strip_qualifier_status.
    destruct (Qgtb _ _); [|destruct (Qltb _ _)]; auto. }
  split; [reflexivity|]. split; [exact Hidx|]. split; [exact Hname|].
  split; [reflexivity|]. split; [reflexivity|].
  split; [exact format_fixed_two_decimals|].
  split; [exact exported_status_band|].
  split; reflexivity.
Qed.

Lemma workbook_three_sheets_witness :
  load (fun _ => inr three_years_csv) iso_to_datetime = inr three_years_df
  /\ observations three_years_df = inr three_years
  /\ three_years <> []
  /\ Forall (fun r => 1 <= month r <= 12) three_years
  /\ exists idx name s1 s2 s3,
    outcome (app (fun _ => inr three_years_csv) iso_to_datetime) = Done tt
    /\ In (download_button "📥 Download Full Report (.xlsx)" [s1; s2; s3]
             "bejin_rainfall_report.xlsx"
             "application/vnd.openxmlformats-officedocument.spreadsheetml.sheet")
          (rendered (app (fun _ => inr three_years_csv) iso_to_datetime))
    /\ map sheet_name [s1; s2; s3]
       = ["1_Yearly_Trends"; "2_Monthly_Seasonality"; "3_Key_Insights"]
    /\ header s1 = ["Year"; "Total Rainfall (mm)"; "Status"]
    /\ body s1
       = map (fun item =>
                [ Int (fst item); Text (format_fixed 2 (snd item));
                  Text (strip_qualifier
                          (status_of (snd item - avg_rain three_years)
                                     (avg_rain three_years))) ])
             (yearly_rain three_years)
    /\ (forall a avg, strip_qualifier (status_of a avg) = "Wet"
                      \/ strip_qualifier (status_of a avg) = "Normal"
                      \/ strip_qualifier (status_of a avg) = "Dry")
    /\ strip_qualifier "Wet (Above Average)" = "Wet"
    /\ idxmax (monthly_avg three_years) = inr idx
    /\ month_name idx = inr name
    /\ body s3
       = [ [Text "7-Year Average Rainfall";
            Text (format_fixed 2 (avg_rain three_years) ++ " mm")];
           [Text "Wettest Month"; Text name];
           [Text "Main Recommendation";
            Text (insight_text (select_insight (wet_months (monthly_avg three_years))))] ].
Proof.
  assert (H1 : load (fun _ => inr three_years_csv) iso_to_datetime = inr three_years_df)
    by reflexivity.
  assert (H2 : observations three_years_df = inr three_years) by reflexivity.
  assert (H3 : three_years <> []) by discriminate.
  assert (H4 : Forall (fun r => 1 <= month r <= 12) three_years)
    by (repeat constructor; simpl; lia).
  repeat (split; [assumption|]).
  destruct (workbook_three_sheets _ _ _ _ H1 H2 H3 H4)
    as (idx & name & s1 & s2 & s3 & Hdone & Hin & Hnames & Hhead & Hbody & Hst & Hwet
        & Hidx & Hname & Hkey & _).
  exists idx, name, s1, s2, s3. repeat (split; [assumption|]). exact Hkey.
Defined.

(** C9: in a completed render the Yearly Trends sheet exports, year by
    year, the very 2-decimal rainfall string that the on-screen table
    shows, which is the yearly total formatted to two decimals. *)
Theorem table_matches_export (read_csv : string -> result frame)
    (to_datetime : column -> result (list date)) (df : frame) (rows : list row) :
  load read_csv to_datetime = inr df ->
  observations df = inr rows ->
  rows <> [] ->
  Forall (fun r => 1 <= month r <= 12) rows ->
  exists summary s1 s2 s3,
    In (table summary) (rendered (app read_csv to_datetime))
    /\ In (download_button "📥 Download Full Report (.xlsx)" [s1; s2; s3]
             "bejin_rainfall_report.xlsx"
             "application/vnd.openxmlformats-officedocument.spreadsheetml.sheet")
          (rendered (app read_csv to_datetime))
    /\ map (fun r => (Year r, Rainfall_mm r)) summary
       = map (fun item => (fst item, format_fixed 2 (snd item))) (yearly_rain rows)
    /\ map (firstn 2) (body s1)
       = map (fun r => [Int (Year r); Text (Rainfall_mm r)]) summary.
Proof.
  intros Hload Hobs Hne Hmonths.
  destruct (report_completes df rows Hobs Hne Hmonths)
    as [idx [name [names [Hidx [Hname Hnames]]]]].
  pose proof (summary_data_rows (yearly_rain rows) (avg_rain rows)
                (groupby_sum_ascending year rows)) as Hsum.
  fold (anomaly rows) in Hsum.
  pose proof (fun yd => create_excel_report_sheets yd (monthly_avg rows) (avg_rain rows)
                name (insight_text (select_insight (wet_months (monthly_avg rows))))
                names Hnames) as Hwb.
  rewrite (app_loaded _ _ _ Hload).
  rewrite (report_done df rows idx name _ _ Hobs Hidx Hname Hsum (Hwb _)).
  do 4 eexists. unfold rendered. cbn [fst snd].
  split; [apply in_or_app; right; do 5 right; left; reflexivity|].
  split; [apply in_or_app; right; do 11 right; left; reflexivity|].
  cbn [body]. rewrite !map_map. split; reflexivity.
Qed.

Lemma table_matches_export_witness :
  load (fun _ => inr three_years_csv) iso_to_datetime = inr three_years_df
  /\ observations three_years_df = inr three_years
  /\ three_years <> []
  /\ Forall (fun r => 1 <= month r <= 12) three_years
  /\ exists summary s1 s2 s3,
    In (table summary) (rendered (app (fun _ => inr three_years_csv) iso_to_datetime))
    /\ In (download_button "📥 Download Full Report (.xlsx)" [s1; s2; s3]
             "bejin_rainfall_report.xlsx"
             "application/vnd.openxmlformats-officedocument.spreadsheetml.sheet")
          (rendered (app (fun _ => inr three_years_csv) iso_to_datetime))
    /\ map (fun r => (Year r, Rainfall_mm r)) summary
       = map (fun item => (fst item, format_fixed 2 (snd item))) (yearly_rain three_years)
    /\ map (firstn 2) (body s1)
       = map (fun r => [Int (Year r); Text (Rainfall_mm r)]) summary.
Proof.
  assert (H1 : load (fun _ => inr three_years_csv) iso_to_datetime = inr three_years_df)
    by reflexivity.
  assert (H2 : observations three_years_df = inr three_years) by reflexivity.
  assert (H3 : three_years <> []) by discriminate.
  assert (H4 : Forall (fun r => 1 <= month r <= 12) three_years)
    by (repeat constructor; simpl; lia).
  repeat (split; [assumption|]).
  exact (table_matches_export _ _ _ _ H1 H2 H3 H4).
Defined.

(** The table and the sheet of [three_years], computed. *)
Example three_years_table_and_sheet :
  summary_data (yearly_rain three_years) (anomaly three_years) (avg_rain three_years)
  = inr [ mkTableRow 2018 "90.00" "Normal";
          mkTableRow 2019 "120.00" "Wet (Above Average)";
          mkTableRow 2020 "42.50" "Dry (Below Average)" ]
  /\ option_map (fun wb => map body (firstn 1 wb))
       (match create_excel_report
                [ mkTableRow 2018 "90.00" "Normal";
                  mkTableRow 2019 "120.00" "Wet (Above Average)";
                  mkTableRow 2020 "42.50" "Dry (Below Average)" ]
                (monthly_avg three_years) (avg_rain three_years) "March" ""
        with inr wb => Some wb | inl _ => None end)
     = Some [ [ [Int 2018; Text "90.00"; Text "Normal"];
                [Int 2019; Text "120.00"; Text "Wet"];
                [Int 2020; Text "42.50"; Text "Dry"] ] ].
Proof. split; reflexivity. Qed.

(** ** Load failures and the empty dataset *)

(** The three ways the [try] block fails. *)
Lemma load_failure_causes (read_csv : string -> result frame)
    (to_datetime : column -> result (list date)) (e : exn) :
  load read_csv to_datetime = inl e
  <-> read_csv file_path = inl e
      \/ (exists df, read_csv file_path = inr df
                     /\ getitem_col "date" (normalise df) = inl e)
      \/ (exists df c, read_csv file_path = inr df
                       /\ getitem_col "date" (normalise df) = inr c
                       /\ to_datetime c = inl e).
Proof.
  unfold load.
  destruct (read_csv file_path) as [e0|df]; simpl.
  - split.
    + intros [= ->]. auto.
    + intros [[= ->]|[[df [H _]]|[df [c [H _]]]]]; [reflexivity|discriminate..].
  - destruct (getitem_col "date" (normalise df)) as [e1|c] eqn:Hdate; simpl.
    + split.
      * intros [= ->]. right. left. exists df. auto.
      * intros [H|[[df' [[= <-] H]]|[df' [c [[= <-] [H _]]]]]].
        -- discriminate.
        -- congruence.
        -- congruence.
    + destruct (to_datetime c) as [e2|dates] eqn:Hparse; simpl.
      * split.
        -- intros [= ->]. right. right. exists df, c. auto.
        -- intros [H|[[df' [[= <-] H]]|[df' [c' [[= <-] [H1 H2]]]]]].
           ++ discriminate.
           ++ congruence.
           ++ congruence.
      * split; [discriminate|].
        intros [H|[[df' [[= <-] H]]|[df' [c' [[= <-] [H1 H2]]]]]]; congruence.
Qed.

Lemma getitem_col_has_column (name : string) (df : frame) :
  match getitem_col name df with
  | inl e => e = KeyError name /\ has_column name df = false
  | inr _ => has_column name df = true
  end.
Proof.
  unfold has_column, columns.
  induction df as [|[n c] t IH]; cbn [getitem_col existsb map fst].
  { unfold raise. auto. }
  rewrite (String.eqb_sym name n).
  destruct (String.eqb n name); [reflexivity|exact IH].
Qed.

Lemma getitem_setitem_same (name : string) (c : column) (df : frame) :
  getitem_col name (setitem name c df) = inr c.
Proof.
  induction df as [|[n c'] t IH]; cbn [setitem getitem_col].
  - now rewrite String.eqb_refl.
  - destruct (String.eqb n name) eqn:E; cbn [getitem_col]; rewrite E; [reflexivity|exact IH].
Qed.

Lemma getitem_setitem_other (name other : string) (c : column) (df : frame) :
  name <> other ->
  getitem_col name (setitem other c df) = getitem_col name df.
Proof.
  intros Hne.
  assert (Hoff : String.eqb other name = false).
  { apply String.eqb_neq. congruence. }
  induction df as [|[n c'] t IH]; cbn [setitem getitem_col].
  - now rewrite Hoff.
  - destruct (String.eqb_spec n other) as [->|Hn]; cbn [getitem_col].
    + now rewrite Hoff.
    + destruct (String.eqb n name); [reflexivity|exact IH].
Qed.

Lemma has_column_set_columns (name : string) (f : string -> string) (df : frame) :
  has_column name (set_columns f df)
  = existsb (fun n => String.eqb name (f n)) (columns df).
Proof.
  unfold has_column, columns, set_columns.
  induction df as [|[n c] t IH]; cbn [map existsb fst]; [reflexivity|].
  now rewrite IH.
Qed.

Lemma has_column_rename (old new : string) (df : frame) :
  has_column new (rename old new df) = has_column new df || has_column old df.
Proof.
  unfold rename. rewrite has_column_set_columns. unfold has_column.
  induction (columns df) as [|n l IH]; cbn [existsb]; [reflexivity|].
  rewrite IH. rewrite (String.eqb_sym old n).
  destruct (String.eqb_spec n old) as [->|Hn].
  - rewrite String.eqb_refl, !orb_true_r. reflexivity.
  - destruct (String.eqb new n), (existsb (String.eqb new) l),
      (existsb (String.eqb old) l); reflexivity.
Qed.

Lemma has_column_rename_other (name old new : string) (df : frame) :
  name <> old -> name <> new ->
  has_column name (rename old new df) = has_column name df.
Proof.
  intros Hold Hnew. unfold rename. rewrite has_column_set_columns. unfold has_column.
  induction (columns df) as [|n l IH]; cbn [existsb]; [reflexivity|].
  rewrite IH. f_equal.
  destruct (String.eqb_spec n old) as [->|_]; [|reflexivity].
  rewrite (proj2 (String.eqb_neq name new) Hnew).
  now rewrite (proj2 (String.eqb_neq name old) Hold).
Qed.

(** The normalised frame has a rainfall column exactly when a header reads
    [rainfall] or one of its two aliases once trimmed and lower-cased. *)
Lemma rainfall_column_headers (df : frame) :
  has_column "rainfall" (normalise df) = true
  <-> exists header,
        In header (columns df)
        /\ (lower (strip header) = "rainfall"
            \/ lower (strip header) = "precipitation_mm"
            \/ lower (strip header) = "precip").
Proof.
  assert (Hhas : forall name,
            has_column name (set_columns (fun n => lower (strip n)) df) = true
            <-> exists header, In header (columns df) /\ lower (strip header) = name).
  { intros name. rewrite has_column_set_columns, existsb_exists.
    split; intros [h [H1 H2]]; exists h; split; try exact H1.
    - apply String.eqb_eq in H2. congruence.
    - apply String.eqb_eq. congruence. }
  unfold normalise.
  destruct (has_column "precipitation_mm" _) eqn:Hp;
    [|destruct (has_column "precip" (set_columns _ df)) eqn:Hq].
  - rewrite has_column_rename, Hp, orb_true_r. split; [intros _|reflexivity].
    apply Hhas in Hp. destruct Hp as [h [H1 H2]]. exists h. auto.
  - rewrite has_column_rename, Hq, orb_true_r. split; [intros _|reflexivity].
    apply Hhas in Hq. destruct Hq as [h [H1 H2]]. exists h. auto.
  - rewrite Hhas. split.
    + intros [h [H1 H2]]. exists h. auto.
    + intros [h [H1 [H2|[H2|H2]]]].
      * exists h. auto.
      * assert (Hp' : has_column "precipitation_mm"
                        (set_columns (fun n => lower (strip n)) df) = true)
          by (apply Hhas; exists h; auto).
        congruence.
      * assert (Hq' : has_column "precip"
                        (set_columns (fun n => lower (strip n)) df) = true)
          by (apply Hhas; exists h; auto).
        congruence.
Qed.

(** C4, as stated, fails: a table with a date column and no rainfall alias
    loads without error; the run then ends in a KeyError that no handler
    catches, and no error box is shown. *)
Lemma missing_rainfall_column_uncaught :
  columns (normalise no_rainfall_csv) = ["date"; "rain"]
  /\ app (fun _ => inr no_rainfall_csv) iso_to_datetime
     = (page_header, Raised (KeyError "Column not found: rainfall"))
  /\ ~ (exists e,
          app (fun _ => inr no_rainfall_csv) iso_to_datetime
          = ((page_header ++ [alert error (load_error_message e)])%list, Stopped)).
Proof.
  split; [reflexivity|]. split; [reflexivity|].
  intros [e H]. discriminate H.
Qed.

(** The failures of the load block end the run at the error box. *)
Lemma load_failure_stops (read_csv : string -> result frame)
    (to_datetime : column -> result (list date)) (e : exn) :
  read_csv file_path = inl e
  \/ (exists df, read_csv file_path = inr df /\ has_column "date" (normalise df) = false
                 /\ e = KeyError "date")
  \/ (exists df c, read_csv file_path = inr df
                   /\ getitem_col "date" (normalise df) = inr c
                   /\ to_datetime c = inl e) ->
  app read_csv to_datetime
  = ((page_header ++ [alert error (load_error_message e)])%list, Stopped)
  /\ load_error_message e
     = "ERROR: Could not load the CSV file. Please ensure '" ++ file_path
         ++ "' is in your repository. Details: " ++ str_exn e.
Proof.
  intros H. split; [|reflexivity].
  apply app_load_failed, load_failure_causes.
  destruct H as [H|[[df [H1 [H2 ->]]]|H]]; [auto| |auto].
  right. left. exists df. split; [exact H1|].
  pose proof (getitem_col_has_column "date" (normalise df)) as Hcol.
  destruct (getitem_col "date" (normalise df)) as [e|c].
  - now destruct Hcol as [-> _].
  - congruence.
Qed.

(** A file that loads but has no rainfall column fails at line 70, past
    the handler. *)
Lemma missing_rainfall_raises (read_csv : string -> result frame)
    (to_datetime : column -> result (list date)) (csv : frame) (c : column)
    (dates : list date) :
  read_csv file_path = inr csv ->
  getitem_col "date" (normalise csv) = inr c ->
  to_datetime c = inr dates ->
  has_column "rainfall" (normalise csv) = false ->
  (exists df, load read_csv to_datetime = inr df)
  /\ app read_csv to_datetime
     = (page_header, Raised (KeyError "Column not found: rainfall")).
Proof.
  intros Hread Hdate Hparse Hrain.
  assert (Hload : load read_csv to_datetime
                  = inr (setitem "month" (IntCol (map date_month dates))
                           (setitem "year" (IntCol (map date_year dates))
                              (setitem "date" (DateCol dates) (normalise csv))))).
  { unfold load. rewrite Hread. cbn [bind]. rewrite Hdate. cbn [bind].
    rewrite Hparse. reflexivity. }
  split; [eexists; exact Hload|].
  rewrite (app_loaded _ _ _ Hload). unfold report, observations, int_column, numeric_column.
  rewrite getitem_setitem_other by discriminate.
  rewrite getitem_setitem_same. cbn [bind].
  do 3 rewrite getitem_setitem_other by discriminate.
  pose proof (getitem_col_has_column "rainfall" (normalise csv)) as Hcol.
  destruct (getitem_col "rainfall" (normalise csv)) as [e|col]; [reflexivity|congruence].
Qed.

(** C4, amended: every failure inside the load block - the file missing or
    unreadable, no column that normalises to [date], a date that does not
    parse - is caught at the top level: the page shows one error box whose
    text names the file and ends with the cause, the run stops, and no
    table, chart or download follows.  A file without a rainfall column - no
    header that reads [rainfall], [precipitation_mm] or [precip] once
    trimmed and lower-cased - is no load failure: when its dates load, the
    load succeeds and the aggregation raises a missing-column error that
    the handler does not catch, after the page header alone. *)
Theorem load_failure_caught (read_csv : string -> result frame)
    (to_datetime : column -> result (list date)) :
  (forall e,
     read_csv file_path = inl e
     \/ (exists df, read_csv file_path = inr df /\ has_column "date" (normalise df) = false
                    /\ e = KeyError "date")
     \/ (exists df c, read_csv file_path = inr df
                      /\ getitem_col "date" (normalise df) = inr c
                      /\ to_datetime c = inl e) ->
     app read_csv to_datetime
     = ((page_header ++ [alert error (load_error_message e)])%list, Stopped)
     /\ load_error_message e
        = "ERROR: Could not load the CSV file. Please ensure '" ++ file_path
            ++ "' is in your repository. Details: " ++ str_exn e)
  /\ (forall csv c dates,
        read_csv file_path = inr csv ->
        getitem_col "date" (normalise csv) = inr c ->
        to_datetime c = inr dates ->
        has_column "rainfall" (normalise csv) = false ->
        (exists df, load read_csv to_datetime = inr df)
        /\ app read_csv to_datetime
           = (page_header, Raised (KeyError "Column not found: rainfall")))
  /\ (forall csv,
        has_column "rainfall" (normalise csv) = false
        <-> forall header,
              In header (columns csv) ->
              lower (strip header) <> "rainfall"
              /\ lower (strip header) <> "precipitation_mm"
              /\ lower (strip header) <> "precip").
Proof.
  split; [|split].
  - intros e. apply load_failure_stops.
  - intros csv c dates. apply missing_rainfall_raises.
  - intros csv. pose proof (rainfall_column_headers csv) as Hiff.
    destruct (has_column "rainfall" (normalise csv)); split.
    + discriminate.
    + intros Hnone. destruct (proj1 Hiff eq_refl) as [h [Hin Hh]].
      destruct (Hnone h Hin) as [H1 [H2 H3]]. destruct Hh as [Hh|[Hh|Hh]]; congruence.
    + intros _ h Hin.
      repeat split; intros Hh;
        assert (false = true) by (apply Hiff; exists h; auto); discriminate.
    + reflexivity.
Qed.

Lemma load_failure_caught_witness :
  (exists df, (fun _ : string => @inr exn frame no_date_csv) file_path = inr df
              /\ has_column "date" (normalise df) = false)
  /\ app (fun _ => inr no_date_csv) iso_to_datetime
     = ((page_header ++ [alert error (load_error_message (KeyError "date"))])%list, Stopped)
  /\ load_error_message (KeyError "date")
     = "ERROR: Could not load the CSV file. Please ensure '" ++ file_path
         ++ "' is in your repository. Details: " ++ str_exn (KeyError "date")
  /\ getitem_col "date" (normalise no_rainfall_csv) = inr (TextCol ["2020-06-01"])
  /\ iso_to_datetime (TextCol ["2020-06-01"]) = inr [mkDate 2020 6 1]
  /\ has_column "rainfall" (normalise no_rainfall_csv) = false
  /\ (exists df, load (fun _ => inr no_rainfall_csv) iso_to_datetime = inr df)
  /\ app (fun _ => inr no_rainfall_csv) iso_to_datetime
     = (page_header, Raised (KeyError "Column not found: rainfall")).
Proof.
  split; [exists no_date_csv; split; reflexivity|].
  destruct (proj1 (load_failure_caught (fun _ => inr no_date_csv) iso_to_datetime)
              (KeyError "date")) as [Hstop Hmsg].
  { right. left. exists no_date_csv. repeat split; reflexivity. }
  split; [exact Hstop|]. split; [exact Hmsg|].
  assert (H1 : getitem_col "date" (normalise no_rainfall_csv) = inr (TextCol ["2020-06-01"]))
    by reflexivity.
  assert (H2 : iso_to_datetime (TextCol ["2020-06-01"]) = inr [mkDate 2020 6 1])
    by reflexivity.
  assert (H3 : has_column "rainfall" (normalise no_rainfall_csv) = false) by reflexivity.
  repeat (split; [assumption|]).
  exact (proj1 (proj2 (load_failure_caught (fun _ => inr no_rainfall_csv) iso_to_datetime))
           no_rainfall_csv _ _ eq_refl H1 H2 H3).
Defined.

(** A missing file and a date that does not parse, run through the script. *)
Example load_failures_run :
  app (fun _ => inl (ReadError "[Errno 2] No such file or directory: 'beijing_2018_2024_weather.csv'"))
      iso_to_datetime
  = ((page_header
        ++ [alert error "ERROR: Could not load the CSV file. Please ensure 'beijing_2018_2024_weather.csv' is in your repository. Details: [Errno 2] No such file or directory: 'beijing_2018_2024_weather.csv'"])%list,
     Stopped)
  /\ app (fun _ => inr [("date", TextCol ["June first"]); ("precip", NumCol [Some 50%Q])])
         iso_to_datetime
     = ((page_header
           ++ [alert error "ERROR: Could not load the CSV file. Please ensure 'beijing_2018_2024_weather.csv' is in your repository. Details: Unknown datetime string format, unable to parse: June first"])%list,
        Stopped).
Proof. split; reflexivity. Qed.

(** C10: a dataset without rows passes the loader; the aggregation then
    raises on the argmax of the empty monthly profile, outside the load
    handler, so the run ends in an uncaught error after the page header:
    no statistics, table, chart or download. *)
Theorem empty_dataset_uncaught (read_csv : string -> result frame)
    (to_datetime : column -> result (list date)) (df : frame) :
  load read_csv to_datetime = inr df ->
  observations df = inr [] ->
  idxmax (monthly_avg []) = inl (ValueError "attempt to get argmax of an empty sequence")
  /\ app read_csv to_datetime
     = (page_header, Raised (ValueError "attempt to get argmax of an empty sequence")).
Proof.
  intros Hload Hobs. split; [reflexivity|].
  rewrite (app_loaded _ _ _ Hload). unfold report. rewrite Hobs. reflexivity.
Qed.

Lemma empty_dataset_uncaught_witness :
  load (fun _ => inr empty_csv) iso_to_datetime = inr empty_df
  /\ observations empty_df = inr []
  /\ idxmax (monthly_avg []) = inl (ValueError "attempt to get argmax of an empty sequence")
  /\ app (fun _ => inr empty_csv) iso_to_datetime
     = (page_header, Raised (ValueError "attempt to get argmax of an empty sequence")).
Proof.
  assert (H1 : load (fun _ => inr empty_csv) iso_to_datetime = inr empty_df) by reflexivity.
  assert (H2 : observations empty_df = inr []) by reflexivity.
  repeat (split; [assumption|]).
  exact (empty_dataset_uncaught _ _ _ H1 H2).
Defined.

(** * Further properties of the pipeline *)

(** ** The two groupings and the year span *)

Lemma ascending_length_bound (l : list Z) :
  forall lo hi,
    StronglySorted Z.lt l -> Forall (fun k => lo <= k <= hi) l ->
    Z.of_nat (List.length l) <= Z.max 0 (hi - lo + 1).
Proof.
  induction l as [|h t IH]; intros lo hi Hs Hb; simpl List.length.
  - lia.
  - inversion Hs as [|? ? Ht Hall]; subst.
    inversion Hb as [|? ? Hh Hbt]; subst.
    assert (Hb' : Forall (fun k => h + 1 <= k <= hi) t).
    { rewrite Forall_forall in *. intros k Hk.
      specialize (Hall k Hk). specialize (Hbt k Hk). lia. }
    specialize (IH (h + 1) hi Ht Hb'). lia.
Qed.

Lemma fold_left_max_bounds (ys : list Z) :
  forall y, y <= fold_left Z.max ys y
            /\ Forall (fun x => x <= fold_left Z.max ys y) ys.
Proof.
  induction ys as [|a ys IH]; intros y; simpl.
  - split; [lia|constructor].
  - destruct (IH (Z.max y a)) as [H1 H2]. split; [lia|].
    constructor; [lia|exact H2].
Qed.

Lemma fold_left_min_bounds (ys : list Z) :
  forall y, fold_left Z.min ys y <= y
            /\ Forall (fun x => fold_left Z.min ys y <= x) ys.
Proof.
  induction ys as [|a ys IH]; intros y; simpl.
  - split; [lia|constructor].
  - destruct (IH (Z.min y a)) as [H1 H2]. split; [lia|].
    constructor; [lia|exact H2].
Qed.

(** Every year of the dataset lies between the two ends of the span. *)
Lemma year_span_covers (rows : list row) (y : Z) :
  In y (map year rows) ->
  exists lo hi, year_span rows = hi - lo + 1 /\ lo <= y <= hi.
Proof.
  unfold year_span. destruct (map year rows) as [|y0 ys]; [intros []|].
  intros Hin.
  destruct (fold_left_max_bounds ys y0) as [Hmax0 Hmax].
  destruct (fold_left_min_bounds ys y0) as [Hmin0 Hmin].
  exists (fold_left Z.min ys y0), (fold_left Z.max ys y0).
  split; [reflexivity|].
  rewrite Forall_forall in Hmax, Hmin.
  destruct Hin as [<-|Hin]; [lia|].
  specialize (Hmax y Hin). specialize (Hmin y Hin). lia.
Qed.

(** X1: the grouping by month partitions the rows just as the grouping by
    year does: the monthly totals and the yearly totals both add up to the
    sum of the rainfall column, and on a non-empty dataset the monthly
    averages times the year span give that sum back. *)
Theorem monthly_totals_partition_rows (rows : list row) :
  rows <> [] ->
  (Qsum (values (monthly_total rows)) == column_sum rows)%Q
  /\ (Qsum (values (monthly_total rows)) == Qsum (values (yearly_rain rows)))%Q
  /\ (Qsum (values (monthly_avg rows)) * inject_Z (year_span rows) == column_sum rows)%Q.
Proof.
  intros Hrows.
  assert (Hm : (Qsum (values (monthly_total rows)) == column_sum rows)%Q)
    by apply Qsum_groupby_sum.
  split; [exact Hm|]. split.
  - rewrite Hm. symmetry. apply Qsum_groupby_sum.
  - rewrite <- Hm. unfold monthly_avg.
    assert (Hspan : ~ (inject_Z (year_span rows) == 0)%Q).
    { destruct rows as [|r rows]; [congruence|].
      destruct (year_span_covers (r :: rows) (year r)) as [lo [hi [-> Hb]]];
        [left; reflexivity|].
      unfold Qeq. simpl. lia. }
    generalize (monthly_total rows). intros s.
    induction s as [|[k v] s IH]; simpl.
    + ring.
    + fold (values (series_div s (inject_Z (year_span rows)))).
      fold (Qsum (values (series_div s (inject_Z (year_span rows))))).
      fold (values s). fold (Qsum (values s)).
      rewrite <- IH. field. exact Hspan.
Qed.

Lemma monthly_totals_partition_rows_witness :
  three_years <> []
  /\ (Qsum (values (monthly_total three_years)) == column_sum three_years)%Q
  /\ (Qsum (values (monthly_total three_years)) == Qsum (values (yearly_rain three_years)))%Q
  /\ (Qsum (values (monthly_avg three_years)) * inject_Z (year_span three_years)
      == column_sum three_years)%Q.
Proof.
  split; [discriminate|].
  apply (monthly_totals_partition_rows three_years). discriminate.
Defined.

(** X2: on a non-empty dataset the divisor of the monthly averages is at
    least the number of years that have data, hence at least one: it counts
    the calendar years from the first to the last, gaps included. *)
Theorem year_span_counts_calendar_years (rows : list row) :
  rows <> [] ->
  1 <= Z.of_nat (List.length (yearly_rain rows)) <= year_span rows.
Proof.
  intros Hrows. split.
  - pose proof (groupby_sum_nonempty year rows Hrows) as Hne.
    unfold yearly_rain. destruct (groupby_sum year rows); [congruence|simpl; lia].
  - destruct rows as [|r rows]; [congruence|].
    destruct (year_span_covers (r :: rows) (year r)) as [lo0 [hi0 [Hspan0 Hb0]]];
      [left; reflexivity|].
    unfold year_span in *.
    destruct (map year (r :: rows)) as [|y0 ys] eqn:Hys; [discriminate|].
    set (hi := fold_left Z.max ys y0) in *. set (lo := fold_left Z.min ys y0) in *.
    assert (Hb : Forall (fun k => lo <= k <= hi) (index (yearly_rain (r :: rows)))).
    { apply Forall_forall. intros k Hk. unfold yearly_rain in Hk.
      apply In_index_groupby_sum in Hk.
      destruct (year_span_covers (r :: rows) k Hk) as [lo1 [hi1 [Hspan1 Hb1]]].
      unfold year_span in Hspan1. rewrite Hys in Hspan1.
      destruct (fold_left_max_bounds ys y0) as [Hmax0 Hmax].
      destruct (fold_left_min_bounds ys y0) as [Hmin0 Hmin].
      rewrite Hys in Hk. rewrite Forall_forall in Hmax, Hmin.
      destruct Hk as [<-|Hk]; [subst hi lo; lia|].
      specialize (Hmax k Hk). specialize (Hmin k Hk). subst hi lo. lia. }
    pose proof (ascending_length_bound _ lo hi
                  (groupby_sum_ascending year (r :: rows)) Hb) as Hlen.
    unfold index in Hlen. rewrite length_map in Hlen. fold (yearly_rain (r :: rows)) in Hlen.
    lia.
Qed.

Lemma year_span_counts_calendar_years_witness :
  three_years <> []
  /\ 1 <= Z.of_nat (List.length (yearly_rain three_years)) <= year_span three_years.
Proof.
  split; [discriminate|].
  apply (year_span_counts_calendar_years three_years). discriminate.
Defined.

(** A dataset for 2018 and 2024 only: two years of data, a span of seven. *)
Example year_span_ignores_gaps :
  year_span [mkRow 2024 5 (Some 10%Q); mkRow 2018 5 (Some 60%Q)] = 7
  /\ monthly_avg [mkRow 2024 5 (Some 10%Q); mkRow 2018 5 (Some 60%Q)] = [(5, 70 # 7)].
Proof. split; reflexivity. Qed.

(** ** Monthly profile: size and peak *)

(** X3: with calendar months the profile has at most twelve entries, so
    the count of wet months lies between zero and twelve. *)
Theorem wet_months_at_most_twelve (rows : list row) :
  Forall (fun r => 1 <= month r <= 12) rows ->
  (List.length (monthly_avg rows) <= 12)%nat
  /\ 0 <= wet_months (monthly_avg rows) <= Z.of_nat (List.length (monthly_avg rows))
  /\ wet_months (monthly_avg rows) <= 12.
Proof.
  intros Hmonths.
  assert (Hb : Forall (fun k => 1 <= k <= 12) (index (monthly_avg rows))).
  { apply Forall_forall. intros m. now apply monthly_avg_months. }
  pose proof (ascending_length_bound _ 1 12 (monthly_avg_ascending rows) Hb) as Hlen.
  unfold index in Hlen. rewrite length_map in Hlen.
  assert (Hw : (List.length (filter (fun kv => Qgtb (snd kv) 100) (monthly_avg rows))
                <= List.length (monthly_avg rows))%nat) by apply filter_length_le.
  unfold wet_months. lia.
Qed.

Lemma wet_months_at_most_twelve_witness :
  Forall (fun r => 1 <= month r <= 12) three_years
  /\ (List.length (monthly_avg three_years) <= 12)%nat
  /\ 0 <= wet_months (monthly_avg three_years)
     <= Z.of_nat (List.length (monthly_avg three_years))
  /\ wet_months (monthly_avg three_years) <= 12.
Proof.
  assert (H : Forall (fun r => 1 <= month r <= 12) three_years)
    by (repeat constructor; simpl; lia).
  split; [exact H|].
  apply (wet_months_at_most_twelve three_years H).
Defined.

(** The scan for the label and the scan for the value stop at the same
    entry. *)
Lemma idxmax_from_series_max (t : series) :
  forall best : Z * Q,
    In (idxmax_from best t,
        fold_left (fun m x => if Qgtb x m then x else m) (values t) (snd best))
       (best :: t).
Proof.
  induction t as [|kv t IH]; intros best; simpl.
  - left. now destruct best.
  - destruct (Qgtb (snd kv) (snd best)).
    + right. apply IH.
    + destruct (IH best) as [H|H]; [left; exact H|right; right; exact H].
Qed.

(** X4: the Peak Avg. Monthly Rain metric shows the average of the very
    month that the Wettest Month metric names. *)
Theorem peak_is_wettest_month_average (rows : list row) :
  rows <> [] ->
  exists m,
    idxmax (monthly_avg rows) = inr m
    /\ lookup m (monthly_avg rows) = Some (series_max (monthly_avg rows)).
Proof.
  intros Hrows.
  pose proof (monthly_avg_ascending rows) as Hasc.
  pose proof (monthly_avg_nonempty rows Hrows) as Hne.
  destruct (monthly_avg rows) as [|best t] eqn:E; [congruence|].
  exists (idxmax_from best t). split; [reflexivity|].
  apply In_lookup; [now apply ascending_NoDup|].
  unfold series_max. cbn [values map]. apply idxmax_from_series_max.
Qed.

Lemma peak_is_wettest_month_average_witness :
  three_years <> []
  /\ exists m,
       idxmax (monthly_avg three_years) = inr m
       /\ lookup m (monthly_avg three_years) = Some (series_max (monthly_avg three_years)).
Proof.
  split; [discriminate|].
  apply (peak_is_wettest_month_average three_years). discriminate.
Defined.

(** ** Anomalies, bars and statuses *)

Lemma anomaly_total_zero (rows : list row) :
  rows <> [] -> (Qsum (values (anomaly rows)) == 0)%Q.
Proof.
  intros Hrows.
  pose proof (years_positive rows Hrows) as Hn.
  unfold anomaly. rewrite values_series_sub, Qsum_shift.
  unfold avg_rain, mean. field.
  intros H. unfold Qeq in H. simpl in H. lia.
Qed.

(** A list that sums to zero has an entry on each side of zero. *)
Lemma Qsum_zero_both_sides (l : list Q) :
  l <> [] -> (Qsum l == 0)%Q ->
  Exists (fun x => 0 <= x)%Q l /\ Exists (fun x => x <= 0)%Q l.
Proof.
  intros Hne Hsum.
  assert (Hdec : forall l : list Q,
            (Exists (fun x => 0 <= x)%Q l \/ (l <> [] -> Qsum l < 0)%Q)
            /\ (Exists (fun x => x <= 0)%Q l \/ (l <> [] -> 0 < Qsum l)%Q)).
  { clear. induction l as [|x l [IH1 IH2]]; [split; right; congruence|].
    split.
    - destruct (Qlt_le_dec x 0) as [Hx|Hx]; [|left; now constructor].
      destruct IH1 as [IH1|IH1]; [left; now constructor|].
      right. intros _. simpl. destruct l as [|y l]; [simpl; lra|].
      assert (Qsum (y :: l) < 0)%Q by (apply IH1; discriminate). lra.
    - destruct (Qlt_le_dec 0 x) as [Hx|Hx]; [|left; now constructor].
      destruct IH2 as [IH2|IH2]; [left; now constructor|].
      right. intros _. simpl. destruct l as [|y l]; [simpl; lra|].
      assert (0 < Qsum (y :: l))%Q by (apply IH2; discriminate). lra. }
  destruct (Hdec l) as [[H1|H1] [H2|H2]]; try (specialize (H1 Hne)); try (specialize (H2 Hne));
    try lra; split; assumption.
Qed.

(** The chart of a render that completes. *)
Lemma report_figure (df : frame) (rows : list row) :
  observations df = inr rows ->
  rows <> [] ->
  Forall (fun r => 1 <= month r <= 12) rows ->
  exists summary fig,
    summary_data (yearly_rain rows) (anomaly rows) (avg_rain rows) = inr summary
    /\ In (table summary) (rendered (report df))
    /\ In (pyplot fig) (rendered (report df))
    /\ bars fig = map (fun kv => (fst kv, snd kv, bar_color (snd kv))) (anomaly rows)
    /\ profile_line fig = monthly_avg rows
    /\ xticklabels fig = ["Jan"; "Feb"; "Mar"; "Apr"; "May"; "Jun"; "Jul"; "Aug";
                          "Sep"; "Oct"; "Nov"; "Dec"].
Proof.
  intros Hobs Hne Hmonths.
  destruct (report_completes df rows Hobs Hne Hmonths)
    as [idx [name [names [Hidx [Hname Hnames]]]]].
  pose proof (summary_data_rows (yearly_rain rows) (avg_rain rows)
                (groupby_sum_ascending year rows)) as Hsum.
  fold (anomaly rows) in Hsum.
  pose proof (fun yd => create_excel_report_sheets yd (monthly_avg rows) (avg_rain rows)
                name (insight_text (select_insight (wet_months (monthly_avg rows))))
                names Hnames) as Hwb.
  rewrite (report_done df rows idx name _ _ Hobs Hidx Hname Hsum (Hwb _)).
  do 2 eexists. unfold rendered. cbn [fst snd].
  split; [exact Hsum|].
  split; [do 5 right; left; reflexivity|].
  split; [do 9 right; left; reflexivity|].
  repeat split.
Qed.

Lemma bar_color_blue (x : Q) : bar_color x = "#1f77b4" <-> (0 <= x)%Q.
Proof.
  unfold bar_color. rewrite <- Qle_bool_iff.
  destruct (Qle_bool 0 x); split; congruence.
Qed.

(** X6: table and chart agree.  With rainfall that is not negative, a year
    the table calls Wet has a blue bar and a year it calls Dry a red one,
    row by row and bar by bar. *)
Theorem bar_colour_agrees_with_status (df : frame) (rows : list row) :
  observations df = inr rows ->
  rows <> [] ->
  Forall (fun r => 1 <= month r <= 12) rows ->
  Forall (fun r => 0 <= skipna (rainfall r))%Q rows ->
  exists summary fig,
    In (table summary) (rendered (report df))
    /\ In (pyplot fig) (rendered (report df))
    /\ Forall2 (fun r bar =>
                  fst (fst bar) = Year r
                  /\ (Status r = "Wet (Above Average)" -> snd bar = "#1f77b4")
                  /\ (Status r = "Dry (Below Average)" -> snd bar = "#d62728"))
               summary (bars fig).
Proof.
  intros Hobs Hne Hmonths Hrain.
  pose proof (avg_rain_nonneg rows Hrain) as Havg.
  destruct (report_figure df rows Hobs Hne Hmonths)
    as [summary [fig [Hsum [Htable [Hfig [Hbars _]]]]]].
  exists summary, fig. split; [exact Htable|]. split; [exact Hfig|].
  rewrite Hbars. unfold anomaly in Hsum.
  rewrite (summary_data_rows (yearly_rain rows) (avg_rain rows)
             (groupby_sum_ascending year rows)) in Hsum.
  injection Hsum as <-. unfold anomaly, series_sub. rewrite map_map.
  generalize (yearly_rain rows). intros s.
  induction s as [|[y total] s IH]; cbn [map fst snd]; constructor; [|exact IH].
  cbn [Year Status fst snd].
  destruct (status_of_band (total - avg_rain rows) (avg_rain rows) Havg) as [Hwet [Hdry _]].
  split; [reflexivity|]. split; intros Hst.
  - apply bar_color_blue. apply Hwet in Hst. lra.
  - apply Hdry in Hst. unfold bar_color.
    destruct (Qle_bool 0 (total - avg_rain rows)) eqn:E; [|reflexivity].
    apply Qle_bool_iff in E. lra.
Qed.

Lemma bar_colour_agrees_with_status_witness :
  observations three_years_df = inr three_years
  /\ three_years <> []
  /\ Forall (fun r => 1 <= month r <= 12) three_years
  /\ Forall (fun r => 0 <= skipna (rainfall r))%Q three_years
  /\ exists summary fig,
       In (table summary) (rendered (report three_years_df))
       /\ In (pyplot fig) (rendered (report three_years_df))
       /\ Forall2 (fun r bar =>
                     fst (fst bar) = Year r
                     /\ (Status r = "Wet (Above Average)" -> snd bar = "#1f77b4")
                     /\ (Status r = "Dry (Below Average)" -> snd bar = "#d62728"))
                  summary (bars fig).
Proof.
  assert (H2 : observations three_years_df = inr three_years) by reflexivity.
  assert (H3 : three_years <> []) by discriminate.
  assert (H4 : Forall (fun r => 1 <= month r <= 12) three_years)
    by (repeat constructor; simpl; lia).
  assert (H5 : Forall (fun r => 0 <= skipna (rainfall r))%Q three_years)
    by (repeat constructor; vm_compute; discriminate).
  repeat (split; [assumption|]).
  exact (bar_colour_agrees_with_status _ _ H2 H3 H4 H5).
Defined.

(** X7: with rainfall that is not negative the yearly table of a non-empty
    dataset never calls every year Wet and never calls every year Dry: some
    year is at or below the average and some year at or above it. *)
Theorem not_all_years_wet_or_dry (rows : list row) :
  rows <> [] ->
  Forall (fun r => 0 <= skipna (rainfall r))%Q rows ->
  exists summary,
    summary_data (yearly_rain rows) (anomaly rows) (avg_rain rows) = inr summary
    /\ Exists (fun r => Status r <> "Wet (Above Average)") summary
    /\ Exists (fun r => Status r <> "Dry (Below Average)") summary.
Proof.
  intros Hne Hrain.
  pose proof (avg_rain_nonneg rows Hrain) as Havg.
  pose proof (anomaly_total_zero rows Hne) as Hzero.
  assert (Hnonempty : values (anomaly rows) <> []).
  { unfold anomaly, series_sub, values. intros H.
    do 2 apply map_eq_nil in H. revert H. now apply groupby_sum_nonempty. }
  destruct (Qsum_zero_both_sides _ Hnonempty Hzero) as [Hpos Hneg].
  eexists. split.
  { unfold anomaly. apply summary_data_rows. apply groupby_sum_ascending. }
  unfold anomaly in Hpos, Hneg. rewrite values_series_sub in Hpos, Hneg.
  unfold values in Hpos, Hneg. rewrite map_map in Hpos, Hneg.
  rewrite Exists_exists in Hpos, Hneg.
  destruct Hpos as [a [Ha Hapos]]. destruct Hneg as [b [Hb Hbneg]].
  apply in_map_iff in Ha. destruct Ha as [kva [<- Hkva]].
  apply in_map_iff in Hb. destruct Hb as [kvb [<- Hkvb]].
  split; apply Exists_exists.
  - eexists. split; [apply in_map; exact Hkvb|]. cbn [Status].
    destruct (status_of_band (snd kvb - avg_rain rows) (avg_rain rows) Havg) as [Hwet _].
    intros Hst. apply Hwet in Hst. lra.
  - eexists. split; [apply in_map; exact Hkva|]. cbn [Status].
    destruct (status_of_band (snd kva - avg_rain rows) (avg_rain rows) Havg) as [_ [Hdry _]].
    intros Hst. apply Hdry in Hst. lra.
Qed.

Lemma not_all_years_wet_or_dry_witness :
  three_years <> []
  /\ Forall (fun r => 0 <= skipna (rainfall r))%Q three_years
  /\ exists summary,
       summary_data (yearly_rain three_years) (anomaly three_years) (avg_rain three_years)
       = inr summary
       /\ Exists (fun r => Status r <> "Wet (Above Average)") summary
       /\ Exists (fun r => Status r <> "Dry (Below Average)") summary.
Proof.
  assert (H1 : three_years <> []) by discriminate.
  assert (H2 : Forall (fun r => 0 <= skipna (rainfall r))%Q three_years)
    by (repeat constructor; vm_compute; discriminate).
  repeat (split; [assumption|]).
  exact (not_all_years_wet_or_dry _ H1 H2).
Defined.

Lemma fold_left_max_const (ys : list Z) (y : Z) :
  Forall (fun x => x = y) ys -> fold_left Z.max ys y = y.
Proof.
  induction 1 as [|x ys -> _ IH]; simpl; [reflexivity|].
  rewrite Z.max_id. exact IH.
Qed.

Lemma fold_left_min_const (ys : list Z) (y : Z) :
  Forall (fun x => x = y) ys -> fold_left Z.min ys y = y.
Proof.
  induction 1 as [|x ys -> _ IH]; simpl; [reflexivity|].
  rewrite Z.min_id. exact IH.
Qed.

(** X8: a dataset that covers a single year, rainfall not negative, gives
    a span of one year, a table of one row, and that year Normal: its total
    is the average. *)
Theorem single_year_is_normal (rows : list row) (y : Z) :
  rows <> [] ->
  Forall (fun r => year r = y) rows ->
  Forall (fun r => 0 <= skipna (rainfall r))%Q rows ->
  year_span rows = 1
  /\ exists total,
       yearly_rain rows = [(y, total)]
       /\ (total == column_sum rows)%Q
       /\ summary_data (yearly_rain rows) (anomaly rows) (avg_rain rows)
          = inr [mkTableRow y (format_fixed 2 total) "Normal"].
Proof.
  intros Hne Hyear Hrain. split.
  - unfold year_span.
    assert (Hys : Forall (fun x => x = y) (map year rows)).
    { apply Forall_forall. intros x Hx. apply in_map_iff in Hx.
      destruct Hx as [r [<- Hr]]. rewrite Forall_forall in Hyear. auto. }
    destruct rows as [|r rows]; [congruence|]. cbn [map] in *.
    inversion Hys as [|? ? Hy0 Hys']; subst.
    rewrite fold_left_max_const, fold_left_min_const by assumption. lia.
  - pose proof (avg_rain_nonneg rows Hrain) as Havg.
    pose proof (Qsum_groupby_sum year rows) as Hsum.
    pose proof (summary_data_rows (yearly_rain rows) (avg_rain rows)
                  (groupby_sum_ascending year rows)) as Htable.
    fold (anomaly rows) in Htable.
    assert (Hkeys : Forall (fun k => y <= k <= y) (index (yearly_rain rows))).
    { apply Forall_forall. intros k Hk. unfold yearly_rain in Hk.
      apply In_index_groupby_sum, in_map_iff in Hk. destruct Hk as [r [<- Hr]].
      rewrite Forall_forall in Hyear. rewrite (Hyear r Hr). lia. }
    pose proof (ascending_length_bound _ y y (groupby_sum_ascending year rows) Hkeys) as Hlen.
    pose proof (groupby_sum_nonempty year rows Hne) as Hnonempty.
    unfold avg_rain in *. fold (yearly_rain rows) in Hsum, Hlen, Hnonempty.
    destruct (yearly_rain rows) as [|[k total] [|kv s]]; [congruence| |simpl in Hlen; lia].
    inversion Hkeys as [|? ? Hk _]; subst. simpl in Hk.
    assert (k = y) by lia. subst k.
    exists total. split; [reflexivity|].
    assert (Hmean : (mean (values [(y, total)]) == total)%Q).
    { unfold mean. simpl. field. }
    split.
    + rewrite <- Hsum. simpl. ring.
    + rewrite Htable. cbn [map fst snd]. do 3 f_equal.
      unfold status_of.
      rewrite (proj2 (Qgtb_false _ _)), (proj2 (Qltb_false _ _)); [reflexivity| |]; lra.
Qed.

Lemma single_year_is_normal_witness :
  one_year <> []
  /\ Forall (fun r => year r = 2021) one_year
  /\ Forall (fun r => 0 <= skipna (rainfall r))%Q one_year
  /\ year_span one_year = 1
  /\ exists total,
       yearly_rain one_year = [(2021, total)]
       /\ (total == column_sum one_year)%Q
       /\ summary_data (yearly_rain one_year) (anomaly one_year) (avg_rain one_year)
          = inr [mkTableRow 2021 (format_fixed 2 total) "Normal"].
Proof.
  assert (H1 : one_year <> []) by discriminate.
  assert (H2 : Forall (fun r => year r = 2021) one_year) by (repeat constructor).
  assert (H3 : Forall (fun r => 0 <= skipna (rainfall r))%Q one_year)
    by (repeat constructor; vm_compute; discriminate).
  repeat (split; [assumption|]).
  exact (single_year_is_normal _ _ H1 H2 H3).
Defined.

(** ** Whole runs *)

(** X9: a render is all or nothing.  With calendar months every run ends
    in one of three ways: the load failed and the page shows the header and
    the error box, then stops; or an exception escaped before anything of
    the report was shown and the page shows the header alone; or the run
    completed and the page shows the header and the twelve widgets of the
    report, the download button last. *)
Theorem render_all_or_nothing (read_csv : string -> result frame)
    (to_datetime : column -> result (list date)) :
  (forall df rows,
     load read_csv to_datetime = inr df -> observations df = inr rows ->
     Forall (fun r => 1 <= month r <= 12) rows) ->
  (exists e,
     load read_csv to_datetime = inl e
     /\ app read_csv to_datetime
        = ((page_header ++ [alert error (load_error_message e)])%list, Stopped))
  \/ (exists df e,
        load read_csv to_datetime = inr df
        /\ app read_csv to_datetime = (page_header, Raised e))
  \/ (exists df wb,
        load read_csv to_datetime = inr df
        /\ outcome (app read_csv to_datetime) = Done tt
        /\ List.length (rendered (app read_csv to_datetime)) = 16%nat
        /\ last (rendered (app read_csv to_datetime)) (write "")
           = download_button "📥 Download Full Report (.xlsx)" wb
               "bejin_rainfall_report.xlsx"
               "application/vnd.openxmlformats-officedocument.spreadsheetml.sheet").
Proof.
  intros Hmonths.
  destruct (load read_csv to_datetime) as [e|df] eqn:Hload.
  - left. exists e. split; [reflexivity|]. now apply app_load_failed.
  - right. rewrite (app_loaded _ _ _ Hload).
    destruct (observations df) as [e|rows] eqn:Hobs.
    + left. exists df, e. split; [reflexivity|].
      unfold report. rewrite Hobs. reflexivity.
    + destruct rows as [|r rows].
      * left. eexists df, _. split; [reflexivity|].
        unfold report. rewrite Hobs. reflexivity.
      * right.
        assert (Hne : r :: rows <> []) by discriminate.
        destruct (report_completes df _ Hobs Hne (Hmonths _ _ eq_refl Hobs))
          as [idx [name [names [Hidx [Hname Hnames]]]]].
        pose proof (summary_data_rows (yearly_rain (r :: rows)) (avg_rain (r :: rows))
                      (groupby_sum_ascending year (r :: rows))) as Hsum.
        fold (anomaly (r :: rows)) in Hsum.
        pose proof (fun yd => create_excel_report_sheets yd (monthly_avg (r :: rows))
                      (avg_rain (r :: rows)) name
                      (insight_text (select_insight (wet_months (monthly_avg (r :: rows)))))
                      names Hnames) as Hwb.
        rewrite (report_done df _ idx name _ _ Hobs Hidx Hname Hsum (Hwb _)).
        exists df. eexists. split; [reflexivity|].
        unfold outcome, rendered. cbn [fst snd].
        split; [reflexivity|]. split; reflexivity.
Qed.

Lemma render_all_or_nothing_witness :
  (forall df rows,
     load (fun _ => inr three_years_csv) iso_to_datetime = inr df ->
     observations df = inr rows ->
     Forall (fun r => 1 <= month r <= 12) rows)
  /\ ((exists e,
         load (fun _ => inr three_years_csv) iso_to_datetime = inl e
         /\ app (fun _ => inr three_years_csv) iso_to_datetime
            = ((page_header ++ [alert error (load_error_message e)])%list, Stopped))
      \/ (exists df e,
            load (fun _ => inr three_years_csv) iso_to_datetime = inr df
            /\ app (fun _ => inr three_years_csv) iso_to_datetime = (page_header, Raised e))
      \/ (exists df wb,
            load (fun _ => inr three_years_csv) iso_to_datetime = inr df
            /\ outcome (app (fun _ => inr three_years_csv) iso_to_datetime) = Done tt
            /\ List.length (rendered (app (fun _ => inr three_years_csv) iso_to_datetime))
               = 16%nat
            /\ last (rendered (app (fun _ => inr three_years_csv) iso_to_datetime)) (write "")
               = download_button "📥 Download Full Report (.xlsx)" wb
                   "bejin_rainfall_report.xlsx"
                   "application/vnd.openxmlformats-officedocument.spreadsheetml.sheet")).
Proof.
  assert (H : forall df rows,
             load (fun _ => inr three_years_csv) iso_to_datetime = inr df ->
             observations df = inr rows ->
             Forall (fun r => 1 <= month r <= 12) rows).
  { intros df rows H1 H2. vm_compute in H1. injection H1 as <-.
    vm_compute in H2. injection H2 as <-. repeat constructor; simpl; lia. }
  split; [exact H|].
  exact (render_all_or_nothing _ _ H).
Defined.

(** ** The loader *)

(** X10: after a successful load the [date], [year] and [month] columns of
    the frame hold the parsed dates and their years and months, whatever
    columns of these names the file came with; every other column is the
    one of the normalised file.  So the observations pair the years and
    months of the dates with the untouched rainfall column. *)
Theorem load_derives_year_and_month (read_csv : string -> result frame)
    (to_datetime : column -> result (list date)) (df : frame) :
  load read_csv to_datetime = inr df ->
  exists csv c dates,
    read_csv file_path = inr csv
    /\ getitem_col "date" (normalise csv) = inr c
    /\ to_datetime c = inr dates
    /\ getitem_col "date" df = inr (DateCol dates)
    /\ getitem_col "year" df = inr (IntCol (map date_year dates))
    /\ getitem_col "month" df = inr (IntCol (map date_month dates))
    /\ (forall name, name <> "date" -> name <> "year" -> name <> "month" ->
                     getitem_col name df = getitem_col name (normalise csv))
    /\ observations df
       = (rs <- numeric_column "rainfall" (normalise csv) ;;
          ret (zip_rows (map date_year dates) (map date_month dates) rs))%result.
Proof.
  unfold load. intros H.
  destruct (read_csv file_path) as [e|csv]; [discriminate|].
  cbn [bind] in H.
  destruct (getitem_col "date" (normalise csv)) as [e|c] eqn:Hdate; [discriminate|].
  cbn [bind] in H.
  destruct (to_datetime c) as [e|dates] eqn:Hparse; [discriminate|].
  cbn [bind] in H. injection H as <-.
  exists csv, c, dates.
  assert (Hother : forall name, name <> "date" -> name <> "year" -> name <> "month" ->
            getitem_col name
              (setitem "month" (IntCol (map date_month dates))
                 (setitem "year" (IntCol (map date_year dates))
                    (setitem "date" (DateCol dates) (normalise csv))))
            = getitem_col name (normalise csv)).
  { intros name H1 H2 H3. now rewrite !getitem_setitem_other. }
  assert (Hyear : getitem_col "year"
              (setitem "month" (IntCol (map date_month dates))
                 (setitem "year" (IntCol (map date_year dates))
                    (setitem "date" (DateCol dates) (normalise csv))))
            = inr (IntCol (map date_year dates))).
  { rewrite getitem_setitem_other by discriminate. apply getitem_setitem_same. }
  split; [reflexivity|]. split; [exact Hdate|]. split; [exact Hparse|].
  split.
  { do 2 rewrite getitem_setitem_other by discriminate. apply getitem_setitem_same. }
  split; [exact Hyear|].
  split; [apply getitem_setitem_same|].
  split; [exact Hother|].
  unfold observations, int_column, numeric_column.
  rewrite Hyear, getitem_setitem_same, Hother by discriminate.
  cbn [bind]. destruct (getitem_col "rainfall" (normalise csv)) as [e|[l|l|l|l]]; reflexivity.
Qed.

Lemma load_derives_year_and_month_witness :
  load (fun _ => inr shouting_csv) iso_to_datetime
  = inr [ ("year", IntCol [2020]); ("date", DateCol [mkDate 2020 6 1]);
          ("rainfall", IntCol [50]); ("month", IntCol [6]) ]
  /\ exists csv c dates,
    (fun _ : string => @inr exn frame shouting_csv) file_path = inr csv
    /\ getitem_col "date" (normalise csv) = inr c
    /\ iso_to_datetime c = inr dates
    /\ getitem_col "date" [ ("year", IntCol [2020]); ("date", DateCol [mkDate 2020 6 1]);
                            ("rainfall", IntCol [50]); ("month", IntCol [6]) ]
       = inr (DateCol dates)
    /\ getitem_col "year" [ ("year", IntCol [2020]); ("date", DateCol [mkDate 2020 6 1]);
                            ("rainfall", IntCol [50]); ("month", IntCol [6]) ]
       = inr (IntCol (map date_year dates))
    /\ getitem_col "month" [ ("year", IntCol [2020]); ("date", DateCol [mkDate 2020 6 1]);
                             ("rainfall", IntCol [50]); ("month", IntCol [6]) ]
       = inr (IntCol (map date_month dates))
    /\ (forall name, name <> "date" -> name <> "year" -> name <> "month" ->
                     getitem_col name [ ("year", IntCol [2020]);
                                        ("date", DateCol [mkDate 2020 6 1]);
                                        ("rainfall", IntCol [50]); ("month", IntCol [6]) ]
                     = getitem_col name (normalise csv))
    /\ observations [ ("year", IntCol [2020]); ("date", DateCol [mkDate 2020 6 1]);
                      ("rainfall", IntCol [50]); ("month", IntCol [6]) ]
       = (rs <- numeric_column "rainfall" (normalise csv) ;;
          ret (zip_rows (map date_year dates) (map date_month dates) rs))%result.
Proof.
  assert (H : load (fun _ => inr shouting_csv) iso_to_datetime
              = inr [ ("year", IntCol [2020]); ("date", DateCol [mkDate 2020 6 1]);
                      ("rainfall", IntCol [50]); ("month", IntCol [6]) ]) by reflexivity.
  split; [exact H|].
  exact (load_derives_year_and_month _ _ _ H).
Defined.

(** X11: which headers give a rainfall column.  After normalisation the
    frame has a column [rainfall] exactly when some header of the file,
    trimmed and lower-cased, reads [rainfall], [precipitation_mm] or
    [precip]; a header that already reads [rainfall] is accepted as it
    is. *)
Theorem rainfall_header_accepted (df : frame) :
  has_column "rainfall" (normalise df) = true
  <-> exists header,
        In header (columns df)
        /\ (lower (strip header) = "rainfall"
            \/ lower (strip header) = "precipitation_mm"
            \/ lower (strip header) = "precip").
Proof.
  assert (Hhas : forall name,
            has_column name (set_columns (fun n => lower (strip n)) df) = true
            <-> exists header, In header (columns df) /\ lower (strip header) = name).
  { intros name. rewrite has_column_set_columns, existsb_exists.
    split; intros [h [H1 H2]]; exists h; split; try exact H1.
    - apply String.eqb_eq in H2. congruence.
    - apply String.eqb_eq. congruence. }
  unfold normalise.
  destruct (has_column "precipitation_mm" _) eqn:Hp;
    [|destruct (has_column "precip" (set_columns _ df)) eqn:Hq].
  - rewrite has_column_rename, Hp, orb_true_r. split; [intros _|reflexivity].
    apply Hhas in Hp. destruct Hp as [h [H1 H2]]. exists h. auto.
  - rewrite has_column_rename, Hq, orb_true_r. split; [intros _|reflexivity].
    apply Hhas in Hq. destruct Hq as [h [H1 H2]]. exists h. auto.
  - rewrite Hhas. split.
    + intros [h [H1 H2]]. exists h. auto.
    + intros [h [H1 [H2|[H2|H2]]]].
      * exists h. auto.
      * assert (Hp' : has_column "precipitation_mm"
                        (set_columns (fun n => lower (strip n)) df) = true)
          by (apply Hhas; exists h; auto).
        congruence.
      * assert (Hq' : has_column "precip"
                        (set_columns (fun n => lower (strip n)) df) = true)
          by (apply Hhas; exists h; auto).
        congruence.
Qed.

(** Headers in capitals with blanks are found; [Rain] is not an alias. *)
Example rainfall_headers :
  has_column "rainfall" (normalise shouting_csv) = true
  /\ has_column "rainfall" (normalise [("date", TextCol []); ("  RainFall", NumCol [])]) = true
  /\ has_column "rainfall" (normalise no_rainfall_csv) = false.
Proof. repeat split; reflexivity. Qed.

(** ** The status regex *)

Lemma last_close_line (q : string) :
  forall pos found,
    ~ In "010"%char (list_ascii_of_string q) ->
    last_close (q ++ ")") pos found = Some (S (pos + String.length q)).
Proof.
  induction q as [|c q IH]; intros pos found Hline; cbn [String.append last_close].
  - cbn. f_equal. lia.
  - cbn [list_ascii_of_string In] in Hline.
    destruct (Ascii.eqb_spec c "010") as [->|_]; [exfalso; auto|].
    rewrite IH by auto. cbn [String.length]. f_equal. lia.
Qed.

Lemma length_append (s1 s2 : string) :
  String.length (s1 ++ s2) = (String.length s1 + String.length s2)%nat.
Proof.
  induction s1 as [|c s1 IH]; simpl; [reflexivity|now rewrite IH].
Qed.

Lemma sub_qualifier_skip (s : string) : sub_qualifier (String.length s) s = "".
Proof.
  induction s as [|c s IH]; [reflexivity|exact IH].
Qed.

Lemma match_qualifier_needs_paren (c : ascii) (s : string) :
  (forall rest, s <> String "(" rest) -> match_qualifier (String c s) = None.
Proof.
  intros H. unfold match_qualifier.
  destruct c as [[] [] [] [] [] [] [] []]; try reflexivity.
  destruct s as [|d s]; [reflexivity|].
  destruct d as [[] [] [] [] [] [] [] []]; try reflexivity.
  exfalso. now apply (H s).
Qed.

(** X12: what the export strips from a status.  A label without an
    opening parenthesis goes through unchanged, and a label of that kind
    followed by a blank and a parenthesised qualifier on the same line
    loses exactly the blank and the qualifier. *)
Theorem strip_qualifier_label (label qualifier : string) :
  ~ In "("%char (list_ascii_of_string label) ->
  ~ In "010"%char (list_ascii_of_string qualifier) ->
  strip_qualifier label = label
  /\ strip_qualifier (label ++ " (" ++ qualifier ++ ")") = label.
Proof.
  intros Hlabel Hline. unfold strip_qualifier. split.
  - induction label as [|c t IH]; [reflexivity|].
    cbn [list_ascii_of_string In] in Hlabel.
    cbn [sub_qualifier]. rewrite match_qualifier_needs_paren.
    + f_equal. apply IH. auto.
    + intros rest ->. apply Hlabel. right. left. reflexivity.
  - induction label as [|c t IH].
    + cbn [String.append sub_qualifier match_qualifier].
      rewrite last_close_line by exact Hline.
      change (String "(" (qualifier ++ ")")) with ("(" ++ qualifier ++ ")").
      replace (2 + String.length qualifier)%nat
        with (String.length ("(" ++ qualifier ++ ")")).
      * apply sub_qualifier_skip.
      * cbn [String.append String.length]. rewrite length_append. simpl. lia.
    + cbn [list_ascii_of_string In] in Hlabel.
      cbn [String.append sub_qualifier]. rewrite match_qualifier_needs_paren.
      * f_equal. apply IH. auto.
      * intros rest Heq. destruct t as [|d t]; cbn [String.append] in Heq.
        -- discriminate Heq.
        -- injection Heq as -> _. apply Hlabel. right. left. reflexivity.
Qed.

Lemma strip_qualifier_label_witness :
  ~ In "("%char (list_ascii_of_string "Very Wet")
  /\ ~ In "010"%char (list_ascii_of_string "Far (far) Above Average")
  /\ strip_qualifier "Very Wet" = "Very Wet"
  /\ strip_qualifier ("Very Wet" ++ " (" ++ "Far (far) Above Average" ++ ")") = "Very Wet".
Proof.
  assert (H1 : ~ In "("%char (list_ascii_of_string "Very Wet")).
  { simpl. intros H. repeat (destruct H as [H|H]; [discriminate H|]). exact H. }
  assert (H2 : ~ In "010"%char (list_ascii_of_string "Far (far) Above Average")).
  { simpl. intros H. repeat (destruct H as [H|H]; [discriminate H|]). exact H. }
  repeat (split; [assumption|]).
  exact (strip_qualifier_label _ _ H1 H2).
Defined.


(** X13: the date header is matched without regard to case and blanks
    around it.  When some header, trimmed and lower-cased, reads [date],
    the loader gets past the column selection; when none does, the run
    stops with the error box whose details read ['date'], whatever else the
    file holds. *)
Theorem date_header_required (read_csv : string -> result frame)
    (to_datetime : column -> result (list date)) (csv : frame) :
  read_csv file_path = inr csv ->
  (has_column "date" (normalise csv) = true
   <-> exists header, In header (columns csv) /\ lower (strip header) = "date")
  /\ ((forall header, In header (columns csv) -> lower (strip header) <> "date") ->
      app read_csv to_datetime
      = ((page_header ++ [alert error (load_error_message (KeyError "date"))])%list, Stopped)
      /\ str_exn (KeyError "date") = "'date'").
Proof.
  intros Hread.
  assert (Hnorm : has_column "date" (normalise csv)
                  = has_column "date" (set_columns (fun n => lower (strip n)) csv)).
  { unfold normalise.
    destruct (has_column "precipitation_mm" _);
      [|destruct (has_column "precip" (set_columns _ csv))];
      [apply has_column_rename_other; discriminate
      |apply has_column_rename_other; discriminate
      |reflexivity]. }
  assert (Hiff : has_column "date" (normalise csv) = true
                 <-> exists header, In header (columns csv) /\ lower (strip header) = "date").
  { rewrite Hnorm, has_column_set_columns, existsb_exists.
    split; intros [h [H1 H2]]; exists h; split; try exact H1.
    - apply String.eqb_eq in H2. congruence.
    - apply String.eqb_eq. congruence. }
  split; [exact Hiff|].
  intros Hnone. split; [|reflexivity].
  apply app_load_failed, load_failure_causes.
  right. left. exists csv. split; [exact Hread|].
  pose proof (getitem_col_has_column "date" (normalise csv)) as Hcol.
  destruct (getitem_col "date" (normalise csv)) as [e|c].
  - now destruct Hcol as [-> _].
  - exfalso. apply Hiff in Hcol. destruct Hcol as [h [H1 H2]]. now apply (Hnone h).
Qed.

Lemma date_header_required_witness :
  (fun _ : string => @inr exn frame no_date_csv) file_path = inr no_date_csv
  /\ (forall header, In header (columns no_date_csv) -> lower (strip header) <> "date")
  /\ app (fun _ => inr no_date_csv) iso_to_datetime
     = ((page_header ++ [alert error (load_error_message (KeyError "date"))])%list, Stopped)
  /\ str_exn (KeyError "date") = "'date'".
Proof.
  assert (H1 : (fun _ : string => @inr exn frame no_date_csv) file_path = inr no_date_csv)
    by reflexivity.
  assert (H2 : forall header, In header (columns no_date_csv) ->
                              lower (strip header) <> "date").
  { simpl. intros header [<-|[<-|[]]]; vm_compute; discriminate. }
  repeat (split; [assumption|]).
  exact (proj2 (date_header_required _ iso_to_datetime _ H1) H2).
Defined.
